(** * Resume verification front ends: score normalisation, derived counts,
      request boundary and session cache

    Shallow embedding of the two orchestrators of the repository:
    - [src/api.py], the Flask endpoint [/api/analyze]          (module [Api]);
    - [src/app.py], the Gradio application and its exporters   (module [App]).

    Scores are Python numbers.  They are modelled by exact rationals [Q]:
    comparisons, [min], division by 100 and multiplication by 100 are the
    rational ones, and statements about scores use the numeric equality [==]
    ([100] and [100.0] are the same score).  Dictionaries with a fixed set of
    keys are records; a key read with [.get] is an [option] field.  Text is
    [string]; [len] is the number of characters of ASCII text. *)

From stdpp Require Import gmap strings list pretty.
From Stdlib Require Import QArith Qround Lqa.
Close Scope Q_scope.

(* ===================================================================== *)
(** ** Python helpers *)
(* ===================================================================== *)

Module Py.

(** [a > b], [a < b] and [a <= b] on numbers. *)
Definition gt (a b : Q) : bool := negb (Qle_bool a b).
Definition lt (a b : Q) : bool := negb (Qle_bool b a).
Definition le (a b : Q) : bool := Qle_bool a b.

(** [min(a, b)]: the first argument unless the second is strictly
    smaller. *)
Definition min (a b : Q) : Q := if lt b a then b else a.

(** Round to the nearest integer, ties to the even one. *)
Definition round_half_even (x : Q) : Z :=
  let f := Qfloor x in
  match Qcompare (x - inject_Z f) (1 # 2) with
  | Lt => f
  | Gt => (f + 1)%Z
  | Eq => if Z.even f then f else (f + 1)%Z
  end.

(** [round(x, 1)]. *)
Definition round1 (x : Q) : Q :=
  (inject_Z (round_half_even (x * 10)) / 10)%Q.

(** [str.lower()] on ASCII text. *)
Definition lower_ascii (c : Ascii.ascii) : Ascii.ascii :=
  let n := Ascii.nat_of_ascii c in
  if (65 <=? n)%nat && (n <=? 90)%nat then Ascii.ascii_of_nat (n + 32)
  else c.

Fixpoint lower (s : string) : string :=
  match s with
  | EmptyString => EmptyString
  | String c s' => String (lower_ascii c) (lower s')
  end.

(** Truth value of a string and of a list. *)
Definition truthy (s : string) : bool := negb (String.eqb s "").

(** [needle in hay]. *)
Definition contains (needle hay : string) : bool :=
  match String.index 0 needle hay with
  | Some _ => true
  | None => false
  end.

(** [sep.join(l)]. *)
Fixpoint join (sep : string) (l : list string) : string :=
  match l with
  | [] => ""
  | [x] => x
  | x :: rest => x +:+ sep +:+ join sep rest
  end.

(** The newline escape of a string literal. *)
Definition NL : string := String (Ascii.ascii_of_nat 10) "".

(** [sum(1 for v in l if p v)]. *)
Definition count {A} (p : A → bool) (l : list A) : nat :=
  sum_list ((λ _, 1%nat) <$> List.filter p l).

(** [d.get(key, dflt)] on an optional field. *)
Definition get {A} (field : option A) (dflt : A) : A := default dflt field.

(** [x == s] where [x] is the result of [d.get(key)] ([None] when the key
    is missing) and [s] a string literal. *)
Definition eq_str (x : option string) (s : string) : bool :=
  match x with
  | Some y => String.eqb y s
  | None => false
  end.

End Py.

(* ===================================================================== *)
(** ** Errors and the state-and-exception monad *)
(* ===================================================================== *)

(** A call either returns or raises; [Raise msg] carries [str(e)]. *)
Inductive outcome (A : Type) : Type :=
| Ok (a : A)
| Raise (msg : string).
Arguments Ok {A} a.
Arguments Raise {A} msg.

Module Exn.
Section Monad.
Context {W : Type}.

(** A computation over the process state [W] that may raise. *)
Definition M (A : Type) : Type := W → outcome A * W.

Definition ret {A} (a : A) : M A := λ w, (Ok a, w).

Definition bind {A B} (m : M A) (k : A → M B) : M B :=
  λ w, match m w with
       | (Ok a, w') => k a w'
       | (Raise e, w') => (Raise e, w')
       end.

Definition raise {A} (msg : string) : M A := λ w, (Raise msg, w).

Definition lift {A} (r : outcome A) : M A := λ w, (r, w).

Definition gets {A} (f : W → A) : M A := λ w, (Ok (f w), w).

Definition modify (f : W → W) : M unit := λ w, (Ok tt, f w).

(** [try: m  except Exception as e: handler(str(e))]. *)
Definition try_except {A} (m : M A) (handler : string → M A) : M A :=
  λ w, match m w with
       | (Ok a, w') => (Ok a, w')
       | (Raise e, w') => handler e w'
       end.

(** [try: m  finally: cleanup]. *)
Definition try_finally {A} (m : M A) (cleanup : M unit) : M A :=
  λ w, match m w with
       | (r, w') =>
           match cleanup w' with
           | (Ok _, w'') => (r, w'')
           | (Raise e, w'') => (Raise e, w'')
           end
       end.
End Monad.
Arguments M : clear implicits.
End Exn.

Notation "'do' x <- m ; k" := (Exn.bind m (λ x, k))
  (at level 10, x name, m at level 100, k at level 200,
   format "'[v' 'do'  x  <-  m ; '/' k ']'").
Notation "'run' m ; k" := (Exn.bind m (λ _, k))
  (at level 10, m at level 100, k at level 200,
   format "'[v' 'run'  m ; '/' k ']'").

(* ===================================================================== *)
(** ** Data model shared by the two front ends *)
(* ===================================================================== *)

Module Model.

Record Claim := {
  claim_id : option string;
  claim_text : option string;
  category : option string;
  verifiability_level : option string;
  quantifiable_metrics : option string;
  links_artifacts : option (list string)
}.

Record ClaimMetrics := {
  specificity_score : Q;
  claims_with_metrics : nat;
  claims_with_artifacts : nat;
  buzzword_density : Q;
  cross_referenced_skills : nat;
  total_skills : nat
}.

Record ValidationRecord := {
  val_claim_id : option string;
  verification_status : option string;
  evidence_present : option string;
  final_evidence_score : option Q
}.

(** The empty dictionary [{}]. *)
Definition empty_validation : ValidationRecord :=
  {| val_claim_id := None; verification_status := None;
     evidence_present := None; final_evidence_score := None |}.

Record RedFlag := {
  flag_category : option string;
  severity : option string;
  description : option string;
  interview_probe : option string
}.

Record ParsedDocument := {
  raw_text : option string;
  sections : option (list (string * string))
}.

(** Results of the three oracle-backed stages. *)
Record ClaimsResult := {
  cr_claims : list Claim;
  cr_metrics : ClaimMetrics
}.

Record ValidationResult := {
  vr_validations : list ValidationRecord;
  vr_consistency_score : Q
}.

Record RedFlagResult := {
  rf_red_flags : list RedFlag;
  rf_credibility_score : Q;
  rf_final_score : Q;
  rf_risk_assessment : string;
  rf_recommendation : string
}.

(** The dictionary handed to [detect_red_flags]. *)
Record Bundle := {
  b_claims : list Claim;
  b_validations : list ValidationRecord;
  b_consistency_score : Q
}.

(** The pipeline stages live in modules of the repository that the two
    front ends import ([cv_parser], [claim_extractor],
    [evidence_validator], [red_flag_detector]); the front ends only call
    them.  They are taken as an interface: each call returns or raises.
    [detect_red_flags] takes first the strictness its detector object was
    built with. *)
Record Stages := {
  parse : string → outcome ParsedDocument;
  extract_claims : ParsedDocument → string → outcome ClaimsResult;
  validate_evidence :
    list Claim → string → bool → bool → outcome ValidationResult;
  detect_red_flags : string → Bundle → string → outcome RedFlagResult
}.

(** What a front end does to the outside world, in order: a temporary
    file is created, a call is made (recorded when it is made, whether it
    returns or raises), a file is removed. *)
Inductive Event :=
| EvCreateTemp (path : string)
| EvSaveUpload (filename path : string)
| EvParse (path : string)
| EvExtract (doc : ParsedDocument) (seniority : string)
| EvValidate (claims : list Claim) (text : string) (check_links deep : bool)
| EvDetect (strictness : string) (bundle : Bundle) (seniority : string)
| EvUnlink (path : string)
| EvWriteFile (path content : string).

(** The events that are calls of a pipeline stage. *)
Definition is_stage_call (e : Event) : bool :=
  match e with
  | EvParse _ | EvExtract _ _ | EvValidate _ _ _ _ | EvDetect _ _ _ => true
  | _ => false
  end.

(** [sum(1 for v in validations if v.get('verification_status') == 'verified')] *)
Definition count_verified (validations : list ValidationRecord) : nat :=
  Py.count (λ v, Py.eq_str (verification_status v) "verified") validations.

(** [sum(1 for v in validations
         if v.get('verification_status') in ['unverified', 'red_flag'])] *)
Definition count_unverified (validations : list ValidationRecord) : nat :=
  Py.count (λ v, Py.eq_str (verification_status v) "unverified"
                 || Py.eq_str (verification_status v) "red_flag")
           validations.

End Model.

(* ===================================================================== *)
(** ** [src/api.py]: the Flask endpoint *)
(* ===================================================================== *)

Module Api.
Import Model.

(** [normalize_score], local to [analyze_resume]. *)
Definition normalize_score (score : Q) : Q :=
  if Py.gt score 100 then Py.min 100 (score / 100)
  else if Py.le score 1 then (score * 100)%Q
  else Py.min 100 score.

(** The uploaded file, with its method [save(path)], which returns or
    raises, and the multipart request. *)
Record FileUpload := {
  filename : string;
  save : string → outcome unit
}.

Record Request := {
  files : gmap string FileUpload;
  form : gmap string string
}.

(** The dictionary [analysis_results] that is sent back as JSON. *)
Record AnalysisResults := {
  success : bool;
  res_filename : string;
  analysis_date : string;
  seniority_level : string;
  strictness_level : string;
  final_score : Q;
  credibility_score : Q;
  consistency_score : Q;
  risk_assessment : string;
  total_claims : nat;
  verified_claims : nat;
  unverified_claims : nat;
  total_red_flags : nat;
  red_flags : list RedFlag;
  recommendation : string;
  claim_metrics : ClaimMetrics;
  claims : option (list Claim);
  validations : option (list ValidationRecord)
}.

(** The JSON bodies the endpoint can send. *)
Inductive Body :=
| JError (error : string)
| JNoClaims (error suggestion : string)
| JFailed (error message : string) (traceback : option string)
| JResults (r : AnalysisResults).

(** Body and HTTP status. *)
Definition Response : Type := Body * Z.

Definition is_error (r : Response) : bool :=
  match r.1 with
  | JResults _ => false
  | _ => true
  end.

(** Process environment: the API key, Flask's debug switch, the clock,
    the temporary files and the text of [traceback.format_exc()].
    [NamedTemporaryFile name] is
    [tempfile.NamedTemporaryFile(delete=False, suffix=os.path.splitext(name)[1])]:
    it creates a file and returns its path, or raises and creates nothing;
    [close path] is [temp_file.close()]. *)
Record Env := {
  GEMINI_API_KEY : string;
  debug : bool;
  now_iso : string;
  NamedTemporaryFile : string → outcome string;
  close : string → outcome unit;
  format_exc : string → string
}.

(** Process state: whether the global [gemini_client] is set, and the
    effects so far. *)
Record World := {
  gemini_client : bool;
  log : list Event
}.

Definition M := Exn.M World.

Definition record_event (e : Event) : M unit :=
  Exn.modify (λ w, {| gemini_client := gemini_client w;
                      log := log w ++ [e] |}).

(** A call of a collaborator: it is logged, then returns or raises. *)
Definition call {A} (e : Event) (r : outcome A) : M A :=
  run record_event e;
  Exn.lift r.

Definition get_gemini_client (env : Env) : M unit :=
  do client <- Exn.gets gemini_client;
  if client then Exn.ret tt
  else if negb (Py.truthy (GEMINI_API_KEY env)) then
    Exn.raise "GEMINI_API_KEY environment variable not set"
  else Exn.modify (λ w, {| gemini_client := true; log := log w |}).

(** [request.form.get(key, dflt)]. *)
Definition form_get (req : Request) (key dflt : string) : string :=
  default dflt (form req !! key).

Definition valid_seniority : list string :=
  ["intern"; "junior"; "mid"; "senior"; "lead"].
Definition valid_strictness : list string := ["low"; "medium"; "high"].

(** The three parameters as [analyze_resume] reads them. *)
Definition seniority (req : Request) : string :=
  Py.lower (form_get req "seniority" "mid").
Definition strictness (req : Request) : string :=
  Py.lower (form_get req "strictness" "medium").
Definition deep_analysis (req : Request) : bool :=
  String.eqb (Py.lower (form_get req "deep_analysis" "false")) "true".

(** [parsed_cv['raw_text']]: a missing key raises. *)
Definition getitem_raw_text (doc : ParsedDocument) : M string :=
  match raw_text doc with
  | Some t => Exn.ret t
  | None => Exn.raise "'raw_text'"
  end.

(** The dictionary literal [analysis_results]. *)
Definition compile_results (env : Env) (req : Request) (file : FileUpload)
    (claims_result : ClaimsResult) (validation_result : ValidationResult)
    (red_flag_result : RedFlagResult)
    (final_score credibility_score consistency_score : Q)
    : AnalysisResults :=
  let claims := cr_claims claims_result in
  {| success := true;
     res_filename := filename file;
     analysis_date := now_iso env;
     seniority_level := seniority req;
     strictness_level := strictness req;
     final_score := final_score;
     credibility_score := credibility_score;
     consistency_score := consistency_score;
     risk_assessment := rf_risk_assessment red_flag_result;
     total_claims := length claims;
     verified_claims := count_verified (vr_validations validation_result);
     unverified_claims :=
       count_unverified (vr_validations validation_result);
     total_red_flags := length (rf_red_flags red_flag_result);
     red_flags := rf_red_flags red_flag_result;
     recommendation := rf_recommendation red_flag_result;
     claim_metrics := cr_metrics claims_result;
     claims :=
       if bool_decide (form req !! "include_claims" = Some "true")
       then Some claims else None;
     validations :=
       if bool_decide (form req !! "include_validations" = Some "true")
       then Some (vr_validations validation_result) else None |}.

(** The inner [try] block: steps 1 to 4 and the compilation of the
    results. *)
Definition pipeline (st : Stages) (env : Env) (req : Request)
    (file : FileUpload) (path : string) : M Response :=
  run get_gemini_client env;
  do parsed_cv <- call (EvParse path) (parse st path);
  do claims_result <-
    call (EvExtract parsed_cv (seniority req))
         (extract_claims st parsed_cv (seniority req));
  let claims := cr_claims claims_result in
  match claims with
  | [] =>
      Exn.ret
        (JNoClaims "No claims found in resume"
           "Ensure resume includes work experience, projects, or skills",
         400%Z)
  | _ :: _ =>
      do text <- getitem_raw_text parsed_cv;
      do validation_result <-
        call (EvValidate claims text (deep_analysis req) (deep_analysis req))
             (validate_evidence st claims text
                (deep_analysis req) (deep_analysis req));
      let bundle :=
        {| b_claims := claims;
           b_validations := vr_validations validation_result;
           b_consistency_score :=
             vr_consistency_score validation_result |} in
      do red_flag_result <-
        call (EvDetect (strictness req) bundle (seniority req))
             (detect_red_flags st (strictness req) bundle (seniority req));
      (* Normalize consistency score *)
      let consistency_score :=
        normalize_score (vr_consistency_score validation_result) in
      (* Round scores *)
      let final_score := Py.round1 (rf_final_score red_flag_result) in
      let credibility_score :=
        Py.round1 (rf_credibility_score red_flag_result) in
      let consistency_score := Py.round1 consistency_score in
      Exn.ret
        (JResults (compile_results env req file claims_result
                     validation_result red_flag_result
                     final_score credibility_score consistency_score),
         200%Z)
  end.

(** [temp_file = tempfile.NamedTemporaryFile(...)]; [file.save(temp_file.name)];
    [temp_file.close()].  The three calls stand before the inner [try]:
    when one of them raises, the [finally] clause does not run. *)
Definition save_temporarily (env : Env) (file : FileUpload) : M string :=
  do temp_file <- Exn.lift (NamedTemporaryFile env (filename file));
  run record_event (EvCreateTemp temp_file);
  run call (EvSaveUpload (filename file) temp_file) (save file temp_file);
  run Exn.lift (close env temp_file);
  Exn.ret temp_file.

(** [POST /api/analyze]. *)
Definition analyze_resume (st : Stages) (env : Env) (req : Request)
    : M Response :=
  Exn.try_except
    (match files req !! "file" with
     | None => Exn.ret (JError "No file uploaded", 400%Z)
     | Some file =>
         if String.eqb (filename file) "" then
           Exn.ret (JError "Empty filename", 400%Z)
         else if negb (bool_decide (seniority req ∈ valid_seniority)) then
           Exn.ret
             (JError
                "Invalid seniority. Must be one of: ['intern', 'junior', 'mid', 'senior', 'lead']",
              400%Z)
         else if negb (bool_decide (strictness req ∈ valid_strictness)) then
           Exn.ret
             (JError
                "Invalid strictness. Must be one of: ['low', 'medium', 'high']",
              400%Z)
         else
           do path <- save_temporarily env file;
           Exn.try_finally
             (pipeline st env req file path)
             (record_event (EvUnlink path))
     end)
    (λ e, Exn.ret
            (JFailed "Analysis failed" e
               (if debug env then Some (format_exc env e) else None),
             500%Z)).

End Api.

(* ===================================================================== *)
(** ** [src/app.py]: the Gradio application *)
(* ===================================================================== *)

Module App.
Import Model.

(** [normalize_score], local to [analyze_resume]. *)
Definition normalize_score (score : Q) : Q :=
  if Py.gt score 100 then
    (* Score was mistakenly multiplied *)
    Py.min 100 (score / 100)
  else if Py.le score 1 then
    (* Score is in decimal format (0-1) *)
    (score * 100)%Q
  else
    (* Score is already in 0-100 range *)
    Py.min 100 score.

(** The dictionary [analysis_results]. *)
Record AnalysisResult := {
  parsed_cv : ParsedDocument;
  claims : list Claim;
  total_claims : nat;
  verified_claims : nat;
  unverified_claims : nat;
  claim_metrics : ClaimMetrics;
  validations : list ValidationRecord;
  consistency_score : Q;
  red_flags : list RedFlag;
  total_red_flags : nat;
  credibility_score : Q;
  final_score : Q;
  risk_assessment : string;
  recommendation : string;
  seniority_level : string;
  links_checked : nat;
  structure_quality : string;
  analysis_timestamp : string
}.

(** [results['consistency_score'] = v]. *)
Definition set_consistency_score (v : Q) (r : AnalysisResult)
    : AnalysisResult :=
  {| parsed_cv := parsed_cv r; claims := claims r;
     total_claims := total_claims r; verified_claims := verified_claims r;
     unverified_claims := unverified_claims r;
     claim_metrics := claim_metrics r; validations := validations r;
     consistency_score := v;
     red_flags := red_flags r; total_red_flags := total_red_flags r;
     credibility_score := credibility_score r;
     final_score := final_score r;
     risk_assessment := risk_assessment r;
     recommendation := recommendation r;
     seniority_level := seniority_level r;
     links_checked := links_checked r;
     structure_quality := structure_quality r;
     analysis_timestamp := analysis_timestamp r |}.

(** A figure of the plotting library, kept opaque. *)
Inductive Fig := MkFig (spec : string).

(** The scores handed to [create_credibility_dashboard]. *)
Record DashScores := {
  ds_final : Q;
  ds_credibility : Q;
  ds_consistency : Q;
  ds_risk_level : string
}.

(** Presentation glue: the plotting module, the clock, temporary file
    names, and the text templates of the display and export functions
    (each is the f-string of the function of that name, a pure function
    of the values it reads). *)
Record Presentation := {
  create_evidence_heatmap :
    list ValidationRecord → list Claim → outcome Fig;
  create_credibility_dashboard : DashScores → list RedFlag → outcome Fig;
  create_claim_distribution : list Claim → outcome Fig;
  create_validation_summary :
    list ValidationRecord → list Claim → outcome Fig;
  now_iso : string;
  temp_file : string → string → string;
  display_template : AnalysisResult → string;
  claims_header : nat → string;
  category_header : string → nat → string;
  generate_single_claim_analysis : Claim → ValidationRecord → string;
  generate_interview_guide_with_context : AnalysisResult → string;
  generate_comprehensive_html_report : AnalysisResult → string;
  generate_professional_interview_checklist : AnalysisResult → string;
  json_dumps : AnalysisResult → string;
  claims_csv : list Claim → string
}.

(** The nine values [analyze_resume] returns, in order. *)
Record Outputs := {
  out_main : string;
  out_dashboard : option Fig;
  out_heatmap : option Fig;
  out_distribution : option Fig;
  out_validation : option Fig;
  out_interview_guide : string;
  out_red_flags : string;
  out_claims : string;
  out_status : string
}.

(** [msg, None, None, None, None, "", "", "", ""]. *)
Definition failure (msg : string) : Outputs :=
  {| out_main := msg; out_dashboard := None; out_heatmap := None;
     out_distribution := None; out_validation := None;
     out_interview_guide := ""; out_red_flags := ""; out_claims := "";
     out_status := "" |}.

(** Process state.  [analysis_results] is a dictionary object: it lives in
    [heap], and both the local variable of [analyze_resume] and
    [current_session['last_analysis']] hold its address. *)
Record World := {
  initialized : bool;
  last_analysis : option nat;
  heap : list AnalysisResult;
  log : list Event
}.

Definition M := Exn.M World.

Definition record_event (e : Event) : M unit :=
  Exn.modify (λ w, {| initialized := initialized w;
                      last_analysis := last_analysis w;
                      heap := heap w; log := log w ++ [e] |}).

Definition call {A} (e : Event) (r : outcome A) : M A :=
  run record_event e;
  Exn.lift r.

(** A new dictionary object. *)
Definition alloc (r : AnalysisResult) : M nat :=
  λ w, (Ok (length (heap w)),
        {| initialized := initialized w; last_analysis := last_analysis w;
           heap := heap w ++ [r]; log := log w |}).

Definition deref (l : nat) : M AnalysisResult :=
  λ w, match heap w !! l with
       | Some r => (Ok r, w)
       | None => (Raise "dangling reference", w)
       end.

Definition store (l : nat) (r : AnalysisResult) : M unit :=
  Exn.modify (λ w, {| initialized := initialized w;
                      last_analysis := last_analysis w;
                      heap := <[l := r]> (heap w); log := log w |}).

(** [current_session['last_analysis'] = analysis_results]. *)
Definition set_last_analysis (l : nat) : M unit :=
  Exn.modify (λ w, {| initialized := initialized w;
                      last_analysis := Some l;
                      heap := heap w; log := log w |}).

(** [generate_comprehensive_analysis_display]: the clamp is written back
    into the dictionary it was given. *)
Definition generate_comprehensive_analysis_display (pr : Presentation)
    (analysis_results : nat) : M string :=
  do r <- deref analysis_results;
  let consistency_score := Py.min 100 (consistency_score r) in
  run store analysis_results (set_consistency_score consistency_score r);
  do r' <- deref analysis_results;
  Exn.ret (display_template pr r').

(** The dictionary [validation_map] of [generate_enhanced_claim_analysis]. *)
Definition build_validation_map (validations : list ValidationRecord)
    : gmap string ValidationRecord :=
  foldl (λ validation_map val,
           let claim_id := Py.get (val_claim_id val) "" in
           if Py.truthy claim_id then <[claim_id := val]> validation_map
           else validation_map)
        ∅ validations.

(** [validation_map.get(claim.get('claim_id', ''), {})]. *)
Definition lookup_validation (validation_map : gmap string ValidationRecord)
    (claim : Claim) : ValidationRecord :=
  let claim_id := Py.get (claim_id claim) "" in
  default empty_validation (validation_map !! claim_id).

(** [categories[cat].append(item)], creating the key at the end of the
    dictionary when it is new. *)
Fixpoint categories_append {A} (cat : string) (item : A)
    (categories : list (string * list A)) : list (string * list A) :=
  match categories with
  | [] => [(cat, [item])]
  | (k, items) :: rest =>
      if String.eqb k cat then (k, items ++ [item]) :: rest
      else (k, items) :: categories_append cat item rest
  end.

(** The loop over [claims[:20]]. *)
Definition group_claims (validation_map : gmap string ValidationRecord)
    (claims : list Claim)
    : list (string * list (Claim * ValidationRecord)) :=
  foldl (λ categories claim,
           let cat := Py.get (category claim) "other" in
           let validation := lookup_validation validation_map claim in
           categories_append cat (claim, validation) categories)
        [] (take 20 claims).

Definition generate_enhanced_claim_analysis (pr : Presentation)
    (claims : list Claim) (validations : list ValidationRecord) : string :=
  match claims with
  | [] => "<p>No claims found to analyze.</p>"
  | _ :: _ =>
      let html := claims_header pr (length claims) in
      let validation_map := build_validation_map validations in
      let categories := group_claims validation_map claims in
      let html :=
        foldl (λ html '(category, items),
                 foldl (λ html '(claim, validation),
                          html +:+
                          generate_single_claim_analysis pr claim validation)
                       (html +:+ category_header pr category (length items))
                       (take 5 items))
              html categories in
      html +:+ "</div>"
  end.

(** The diagnosis of an empty claim list in [analyze_resume]. *)
Definition diagnose_no_claims (parsed_cv : ParsedDocument) : string :=
  let resume_length := String.length (Py.get (raw_text parsed_cv) "") in
  let sections_found := (Py.get (sections parsed_cv) []).*1 in
  if (resume_length <? 100)%nat then
    "⚠️ Resume too short (< 100 words). Please upload a complete resume with work experience, projects, or skills."
  else if (length sections_found =? 0)%nat then
    "⚠️ Could not parse resume structure. Please ensure the file is a valid PDF, DOCX, or TXT with clear sections."
  else if bool_decide (sections_found = ["education"])
          || (length sections_found =? 1)%nat then
    "⚠️ Only found " +:+ default "" (head sections_found) +:+
    " section. Please add:" +:+ Py.NL +:+ "• Work experience" +:+ Py.NL +:+
    "• Projects" +:+ Py.NL +:+ "• Skills" +:+ Py.NL +:+ "• Achievements"
  else
    "⚠️ No analyzable claims found. Sections detected: " +:+
    Py.join ", " sections_found +:+ "." +:+ Py.NL +:+ Py.NL +:+
    "Ensure resume includes specific achievements, not just responsibilities.".

Definition getitem_raw_text (doc : ParsedDocument) : M string :=
  match raw_text doc with
  | Some t => Exn.ret t
  | None => Exn.raise "'raw_text'"
  end.

(** The dictionary literal [analysis_results] of [analyze_resume]. *)
Definition compile_results (pr : Presentation) (parsed_cv : ParsedDocument)
    (claims_result : ClaimsResult) (validation_result : ValidationResult)
    (red_flag_result : RedFlagResult) (seniority_level : string)
    (final_score credibility_score consistency_score : Q)
    : AnalysisResult :=
  let claims := cr_claims claims_result in
  {| parsed_cv := parsed_cv;
     claims := claims;
     total_claims := length claims;
     verified_claims := count_verified (vr_validations validation_result);
     unverified_claims :=
       count_unverified (vr_validations validation_result);
     claim_metrics := cr_metrics claims_result;
     validations := vr_validations validation_result;
     consistency_score := consistency_score;
     red_flags := rf_red_flags red_flag_result;
     total_red_flags := length (rf_red_flags red_flag_result);
     credibility_score := credibility_score;
     final_score := final_score;
     risk_assessment := rf_risk_assessment red_flag_result;
     recommendation := rf_recommendation red_flag_result;
     seniority_level := seniority_level;
     links_checked :=
       Py.count (λ c, match links_artifacts c with
                      | Some (_ :: _) => true
                      | _ => false
                      end) claims;
     structure_quality := "Well-organized";
     analysis_timestamp := now_iso pr |}.

(** The [try] block around the four plots: any failure gives four
    [None]. *)
Definition visualise (pr : Presentation) (claims : list Claim)
    (validation_result : ValidationResult)
    (red_flag_result : RedFlagResult) (consistency_score : Q)
    : M (option Fig * option Fig * option Fig * option Fig) :=
  Exn.try_except
    (do heatmap_fig <-
       Exn.lift (create_evidence_heatmap pr
                   (vr_validations validation_result) claims);
     do dashboard_fig <-
       Exn.lift (create_credibility_dashboard pr
                   {| ds_final := rf_final_score red_flag_result;
                      ds_credibility := rf_credibility_score red_flag_result;
                      ds_consistency := consistency_score;
                      ds_risk_level := rf_risk_assessment red_flag_result |}
                   (rf_red_flags red_flag_result));
     do distribution_fig <- Exn.lift (create_claim_distribution pr claims);
     do validation_fig <-
       Exn.lift (create_validation_summary pr
                   (vr_validations validation_result) claims);
     Exn.ret (Some heatmap_fig, Some dashboard_fig,
              Some distribution_fig, Some validation_fig))
    (λ _, Exn.ret (None, None, None, None)).

(** The [try] block of [analyze_resume]. *)
Definition analysis (st : Stages) (pr : Presentation) (file_path : string)
    (seniority_level strictness_level : string) (deep_analysis : bool)
    : M Outputs :=
  do parsed_cv <- call (EvParse file_path) (parse st file_path);
  do claims_result <-
    call (EvExtract parsed_cv (Py.lower seniority_level))
         (extract_claims st parsed_cv (Py.lower seniority_level));
  let claims := cr_claims claims_result in
  match claims with
  | [] => Exn.ret (failure (diagnose_no_claims parsed_cv))
  | _ :: _ =>
      do text <- getitem_raw_text parsed_cv;
      do validation_result <-
        call (EvValidate claims text deep_analysis deep_analysis)
             (validate_evidence st claims text deep_analysis deep_analysis);
      let bundle :=
        {| b_claims := claims;
           b_validations := vr_validations validation_result;
           b_consistency_score :=
             vr_consistency_score validation_result |} in
      do red_flag_result <-
        call (EvDetect (Py.lower strictness_level) bundle
                (Py.lower seniority_level))
             (detect_red_flags st (Py.lower strictness_level) bundle
                (Py.lower seniority_level));
      (* Fix consistency score normalization *)
      let consistency_score :=
        normalize_score (vr_consistency_score validation_result) in
      (* Round all scores to 1 decimal place for consistency *)
      let final_score := Py.round1 (rf_final_score red_flag_result) in
      let credibility_score :=
        Py.round1 (rf_credibility_score red_flag_result) in
      let consistency_score := Py.round1 consistency_score in
      do analysis_results <-
        alloc (compile_results pr parsed_cv claims_result validation_result
                 red_flag_result seniority_level
                 final_score credibility_score consistency_score);
      (* Store for export *)
      run set_last_analysis analysis_results;
      do figs <-
        visualise pr claims validation_result red_flag_result
          consistency_score;
      let '(heatmap_fig, dashboard_fig, distribution_fig, validation_fig) :=
        figs in
      do main_analysis <-
        generate_comprehensive_analysis_display pr analysis_results;
      let claim_analysis :=
        generate_enhanced_claim_analysis pr claims
          (vr_validations validation_result) in
      do shown <- deref analysis_results;
      let interview_guide := generate_interview_guide_with_context pr shown in
      Exn.ret
        {| out_main := main_analysis;
           out_dashboard := dashboard_fig;
           out_heatmap := heatmap_fig;
           out_distribution := distribution_fig;
           out_validation := validation_fig;
           out_interview_guide := interview_guide;
           out_red_flags := "";
           out_claims := claim_analysis;
           out_status :=
             "✅ Analysis complete! Review the comprehensive breakdown above." |}
  end.

(** [analyze_resume]; [file] is the path of the upload, if any. *)
Definition analyze_resume (st : Stages) (pr : Presentation)
    (file : option string) (seniority_level strictness_level : string)
    (deep_analysis : bool) : M Outputs :=
  do ready <- Exn.gets initialized;
  if negb ready then
    Exn.ret (failure "❌ Please initialize session with API key first")
  else
    match file with
    | None => Exn.ret (failure "❌ Please upload a resume file")
    | Some file_path =>
        Exn.try_except
          (analysis st pr file_path seniority_level strictness_level
             deep_analysis)
          (λ e, Exn.ret (failure ("❌ Analysis failed: " +:+ e)))
    end.

(** Writing one export file. *)
Definition write_export (pr : Presentation) (prefix suffix content : string)
    (msg : string) : M (option (option string * string)) :=
  let path := temp_file pr prefix suffix in
  run record_event (EvWriteFile path content);
  Exn.ret (Some (Some path, msg)).

(** [export_report].  The key ['last_analysis'] is always present in
    [current_session]; its value is [None] until an analysis has been
    stored, and reading [None.get] raises.  An unknown format falls off
    the end of the function, which returns [None]. *)
Definition export_report (pr : Presentation) (format_type : string)
    : M (option (option string * string)) :=
  Exn.try_except
    (do slot <- Exn.gets last_analysis;
     match slot with
     | None => Exn.raise "'NoneType' object has no attribute 'get'"
     | Some results =>
         do r <- deref results;
         (* Fix consistency score before export *)
         run store results
               (set_consistency_score (Py.min 100 (consistency_score r)) r);
         do r <- deref results;
         if String.eqb format_type "HTML" then
           write_export pr "resume_analysis_" ".html"
             (generate_comprehensive_html_report pr r)
             "✅ HTML report generated successfully!"
         else if String.eqb format_type "JSON" then
           write_export pr "resume_analysis_" ".json" (json_dumps pr r)
             "✅ JSON export generated successfully!"
         else if String.eqb format_type "CSV" then
           write_export pr "resume_claims_" ".csv" (claims_csv pr (claims r))
             "✅ CSV export generated successfully!"
         else if String.eqb format_type "Interview Checklist" then
           write_export pr "interview_checklist_" ".txt"
             (generate_professional_interview_checklist pr r)
             "✅ Interview checklist generated successfully!"
         else Exn.ret None
     end)
    (λ e, Exn.ret (Some (None, "❌ Export failed: " +:+ e))).

End App.

(* ===================================================================== *)
(** ** Invariants of the data model *)
(* ===================================================================== *)

Module Invariants.
Import Model.

(** Every validation record carries one of the four statuses. *)
Definition valid_status (v : ValidationRecord) : Prop :=
  verification_status v ∈
    [Some "verified"; Some "partial"; Some "unverified"; Some "red_flag"].

(** Validation records are keyed by [claim_id], one record per claim: no
    two records share a key, and every key is the id of a claim. *)
Definition keyed_by_claims (claims : list Claim)
    (validations : list ValidationRecord) : Prop :=
  NoDup (val_claim_id <$> validations)
  ∧ Forall (λ v, val_claim_id v ∈ claim_id <$> claims) validations.

(** What the derived counts of a result are meant to be, for the
    validation records [validations]: the number of verified records, the
    number of unverified or red-flagged records, and a partial record in
    neither. *)
Definition counts_spec (validations : list ValidationRecord)
    (verified unverified : nat) : Prop :=
  verified =
    length (filter (λ v, verification_status v = Some "verified") validations)
  ∧ unverified =
      length (filter (λ v, verification_status v = Some "unverified"
                           ∨ verification_status v = Some "red_flag")
                     validations)
  ∧ verified + unverified
    + length (filter (λ v, verification_status v = Some "partial") validations)
    = length validations.

(** Two results with the same fields; scores are compared as numbers. *)
Definition same_result (r r' : App.AnalysisResult) : Prop :=
  App.parsed_cv r = App.parsed_cv r'
  ∧ App.claims r = App.claims r'
  ∧ App.total_claims r = App.total_claims r'
  ∧ App.verified_claims r = App.verified_claims r'
  ∧ App.unverified_claims r = App.unverified_claims r'
  ∧ App.claim_metrics r = App.claim_metrics r'
  ∧ App.validations r = App.validations r'
  ∧ (App.consistency_score r == App.consistency_score r')%Q
  ∧ App.red_flags r = App.red_flags r'
  ∧ App.total_red_flags r = App.total_red_flags r'
  ∧ (App.credibility_score r == App.credibility_score r')%Q
  ∧ (App.final_score r == App.final_score r')%Q
  ∧ App.risk_assessment r = App.risk_assessment r'
  ∧ App.recommendation r = App.recommendation r'
  ∧ App.seniority_level r = App.seniority_level r'
  ∧ App.links_checked r = App.links_checked r'
  ∧ App.structure_quality r = App.structure_quality r'
  ∧ App.analysis_timestamp r = App.analysis_timestamp r'.

End Invariants.

(* ===================================================================== *)
(** ** Runs of the Gradio front end *)
(* ===================================================================== *)

Module Runs.
Import Model.

(** The dictionary handed to the detector by both front ends. *)
Definition bundle_of (claims_result : ClaimsResult)
    (validation_result : ValidationResult) : Bundle :=
  {| b_claims := cr_claims claims_result;
     b_validations := vr_validations validation_result;
     b_consistency_score := vr_consistency_score validation_result |}.

(** The four stages answer: the parser gives [doc] with the text [text],
    the extractor a non-empty claim list, the validator [vr] and the
    detector, called on the bundle of [src/app.py], gives [rr]. *)
Definition completes (st : Stages) (path seniority strictness : string)
    (deep : bool) (doc : ParsedDocument) (cr : ClaimsResult) (text : string)
    (vr : ValidationResult) (rr : RedFlagResult) : Prop :=
  parse st path = Ok doc
  ∧ extract_claims st doc (Py.lower seniority) = Ok cr
  ∧ cr_claims cr ≠ []
  ∧ raw_text doc = Some text
  ∧ validate_evidence st (cr_claims cr) text deep deep = Ok vr
  ∧ detect_red_flags st (Py.lower strictness) (bundle_of cr vr)
      (Py.lower seniority) = Ok rr.

(** The stage calls of a complete analysis, in order. *)
Definition stage_calls (path seniority strictness : string) (deep : bool)
    (doc : ParsedDocument) (cr : ClaimsResult) (text : string)
    (vr : ValidationResult) : list Event :=
  [EvParse path;
   EvExtract doc (Py.lower seniority);
   EvValidate (cr_claims cr) text deep deep;
   EvDetect (Py.lower strictness) (bundle_of cr vr) (Py.lower seniority)].

(** The dictionary [analyze_resume] builds and stores. *)
Definition constructed (pr : App.Presentation) (doc : ParsedDocument)
    (cr : ClaimsResult) (vr : ValidationResult) (rr : RedFlagResult)
    (seniority : string) : App.AnalysisResult :=
  App.compile_results pr doc cr vr rr seniority
    (Py.round1 (rf_final_score rr))
    (Py.round1 (rf_credibility_score rr))
    (Py.round1 (App.normalize_score (vr_consistency_score vr))).

(** A dictionary after [min(100, ...)] of its consistency score has been
    written back into it. *)
Definition clamped (r : App.AnalysisResult) : App.AnalysisResult :=
  App.set_consistency_score (Py.min 100 (App.consistency_score r)) r.

(** What can happen to the stored result after it has been stored: the
    display is generated from it, or a report is exported. *)
Inductive later_op :=
| OpDisplay
| OpExport (format_type : string).

Definition run_op (pr : App.Presentation) (w : App.World) (op : later_op)
    : App.World :=
  match op with
  | OpDisplay =>
      match App.last_analysis w with
      | Some l => (App.generate_comprehensive_analysis_display pr l w).2
      | None => w
      end
  | OpExport format_type => (App.export_report pr format_type w).2
  end.

Definition run_ops (pr : App.Presentation) (ops : list later_op)
    (w : App.World) : App.World :=
  foldl (run_op pr) w ops.

End Runs.

(* ===================================================================== *)
(** ** Sample data *)
(* ===================================================================== *)

Module Fixtures.
Import Model.

Definition claim_lead : Claim :=
  {| claim_id := Some "claim_1";
     claim_text := Some "Led a team of 5 engineers";
     category := Some "work_experience";
     verifiability_level := Some "medium";
     quantifiable_metrics := Some "5 engineers";
     links_artifacts := None |}.

Definition claim_python : Claim :=
  {| claim_id := Some "claim_2";
     claim_text := Some "Python";
     category := Some "skill";
     verifiability_level := Some "low";
     quantifiable_metrics := None;
     links_artifacts := Some ["https://example.org/repo"] |}.

Definition validation_lead : ValidationRecord :=
  {| val_claim_id := Some "claim_1";
     verification_status := Some "verified";
     evidence_present := Some "direct";
     final_evidence_score := Some 0.9%Q |}.

Definition validation_python : ValidationRecord :=
  {| val_claim_id := Some "claim_2";
     verification_status := Some "partial";
     evidence_present := Some "contextual";
     final_evidence_score := Some 0.5%Q |}.

Definition sample_claims : list Claim := [claim_lead; claim_python].
Definition sample_validations : list ValidationRecord :=
  [validation_lead; validation_python].

Definition sample_metrics : ClaimMetrics :=
  {| specificity_score := 0.5%Q; claims_with_metrics := 1;
     claims_with_artifacts := 1; buzzword_density := 0.03%Q;
     cross_referenced_skills := 1; total_skills := 1 |}.

(** A document with 118 characters of text and two sections. *)
Definition document : ParsedDocument :=
  {| raw_text :=
       Some "Experience: Led a team of 5 engineers at Example Corp from 2019 to 2023. Skills: Python. Education: BSc, Example Univ.";
     sections :=
       Some [("experience", "Led a team of 5 engineers at Example Corp");
             ("skills", "Python")] |}.

(** A document with 50 characters of text and no section. *)
Definition short_document : ParsedDocument :=
  {| raw_text := Some "John Doe, software engineer. Email: jd@example.com";
     sections := Some [] |}.

Definition sample_flags : RedFlagResult :=
  {| rf_red_flags := [];
     rf_credibility_score := 100%Q;
     rf_final_score := 60.2%Q;
     rf_risk_assessment := "medium";
     rf_recommendation := "Proceed with a standard interview." |}.

(** Stages that parse [doc], extract [claims], validate them as
    [sample_validations] with the raw consistency score [raw], and flag
    nothing. *)
Definition stages (doc : ParsedDocument) (claims : list Claim) (raw : Q)
    : Stages :=
  {| parse := λ _, Ok doc;
     extract_claims :=
       λ _ _, Ok {| cr_claims := claims; cr_metrics := sample_metrics |};
     validate_evidence :=
       λ _ _ _ _, Ok {| vr_validations := sample_validations;
                        vr_consistency_score := raw |};
     detect_red_flags := λ _ _ _, Ok sample_flags |}.

Definition presentation : App.Presentation :=
  {| App.create_evidence_heatmap := λ _ _, Ok (App.MkFig "heatmap");
     App.create_credibility_dashboard := λ _ _, Ok (App.MkFig "dashboard");
     App.create_claim_distribution := λ _, Ok (App.MkFig "distribution");
     App.create_validation_summary := λ _ _, Ok (App.MkFig "summary");
     App.now_iso := "2024-01-01T00:00:00";
     App.temp_file := λ prefix suffix, "/tmp/" +:+ prefix +:+ "x" +:+ suffix;
     App.display_template := λ r, "Comprehensive Resume Analysis";
     App.claims_header := λ n, "Detailed Claim Analysis";
     App.category_header := λ cat n, "<h2>" +:+ cat +:+ "</h2>";
     App.generate_single_claim_analysis :=
       λ c v, "<h3>" +:+ Py.get (claim_text c) "Unknown claim" +:+ ": "
              +:+ Py.get (verification_status v) "unknown" +:+ "</h3>";
     App.generate_interview_guide_with_context :=
       λ r, "Strategic Interview Guide";
     App.generate_comprehensive_html_report := λ r, "<html></html>";
     App.generate_professional_interview_checklist := λ r, "CHECKLIST";
     App.json_dumps := λ r, "{}";
     App.claims_csv := λ cs, "claim_text" |}.

(** A Gradio session that has been initialised and has analysed nothing. *)
Definition ready : App.World :=
  {| App.initialized := true; App.last_analysis := None;
     App.heap := []; App.log := [] |}.

Definition env : Api.Env :=
  {| Api.GEMINI_API_KEY := "key";
     Api.debug := false;
     Api.now_iso := "2024-01-01T00:00:00";
     Api.NamedTemporaryFile := λ name, Ok ("/tmp/upload_" +:+ name);
     Api.close := λ _, Ok tt;
     Api.format_exc := λ e, "Traceback: " +:+ e |}.

(** A fresh Flask process. *)
Definition fresh : Api.World :=
  {| Api.gemini_client := false; Api.log := [] |}.

Definition upload : Api.FileUpload :=
  {| Api.filename := "cv.pdf"; Api.save := λ _, Ok tt |}.

(** A request with a file and the given form fields. *)
Definition request (fields : list (string * string)) : Api.Request :=
  {| Api.files := {["file" := upload]};
     Api.form := list_to_map fields |}.

End Fixtures.

(* ===================================================================== *)
(** ** [src/app.py]: status lines and renderers of the display *)
(* ===================================================================== *)

Module AppViews.
Import Model.

(** [count_evidence_type]. *)
Definition count_evidence_type (results : App.AnalysisResult)
    (evidence_type : string) : nat :=
  let validations := App.validations results in
  Py.count (λ v, Py.eq_str (evidence_present v) evidence_type) validations.

(** [get_timeline_status]. *)
Definition get_timeline_status (results : App.AnalysisResult) : string :=
  let red_flags := App.red_flags results in
  let timeline_issues :=
    List.filter (λ f, Py.eq_str (flag_category f) "timeline") red_flags in
  match timeline_issues with
  | [] => "✅ Consistent - No gaps or overlaps"
  | _ :: _ => "❌ " +:+ pretty (length timeline_issues) +:+ " issues found"
  end.

(** [get_tech_timeline_status]. *)
Definition get_tech_timeline_status (results : App.AnalysisResult) : string :=
  let red_flags := App.red_flags results in
  let tech_issues :=
    List.filter
      (λ f, Py.contains "tech" (Py.lower (Py.get (description f) "")))
      red_flags in
  match tech_issues with
  | [] => "✅ Valid - All technologies used after release"
  | _ :: _ =>
      "❌ " +:+ pretty (length tech_issues) +:+ " anachronisms detected"
  end.

(** [get_role_match_status]. *)
Definition get_role_match_status (results : App.AnalysisResult) : string :=
  let red_flags := App.red_flags results in
  let mismatch_issues :=
    List.filter (λ f, Py.eq_str (flag_category f) "mismatch") red_flags in
  match mismatch_issues with
  | [] => "✅ Aligned - Achievements match role level"
  | _ :: _ =>
      "⚠️ " +:+ pretty (length mismatch_issues) +:+ " mismatches found"
  end.

(** [get_metric_status]. *)
Definition get_metric_status (results : App.AnalysisResult) : string :=
  let red_flags := App.red_flags results in
  let implausible :=
    List.filter (λ f, Py.eq_str (flag_category f) "implausible") red_flags in
  match implausible with
  | [] => "✅ Plausible - Metrics within norms"
  | _ :: _ => "❌ " +:+ pretty (length implausible) +:+ " unrealistic claims"
  end.

(** [get_check_status]. *)
Definition get_check_status (results : App.AnalysisResult)
    (check_type : string) : string :=
  let red_flags := App.red_flags results in
  if String.eqb check_type "timeline" then
    let issues :=
      List.filter (λ f, Py.eq_str (flag_category f) "timeline") red_flags in
    match issues with
    | _ :: _ => "❌ Failed"
    | [] => "✅ Passed"
    end
  else if String.eqb check_type "tech_timeline" then
    let issues :=
      List.filter
        (λ f, Py.contains "tech" (Py.lower (Py.get (description f) "")))
        red_flags in
    match issues with
    | _ :: _ => "❌ Failed"
    | [] => "✅ Passed"
    end
  else if String.eqb check_type "skill_usage" then "⚠️ Partial"
  else "✅ Passed".

(** The texts of [generate_detailed_red_flag_analysis]: the banner for an
    empty list and the three section headers with their count, and
    [generate_single_flag_html], a text template filled from one flag. *)
Record FlagTemplates := {
  no_issues_banner : string;
  critical_header : nat → string;
  high_header : nat → string;
  medium_header : nat → string;
  generate_single_flag_html : RedFlag → string
}.

(** One section of [generate_detailed_red_flag_analysis]: header, flags,
    closing tag. *)
Definition flag_section (t : FlagTemplates) (html header : string)
    (flags : list RedFlag) : string :=
  foldl (λ html flag, html +:+ generate_single_flag_html t flag)
        (html +:+ header) flags
  +:+ "</div>".

(** [generate_detailed_red_flag_analysis]. *)
Definition generate_detailed_red_flag_analysis (t : FlagTemplates)
    (red_flags : list RedFlag) : string :=
  match red_flags with
  | [] => no_issues_banner t
  | _ :: _ =>
      (* Group by severity *)
      let critical :=
        List.filter (λ f, Py.eq_str (severity f) "critical") red_flags in
      let high :=
        List.filter (λ f, Py.eq_str (severity f) "high") red_flags in
      let medium :=
        List.filter (λ f, Py.eq_str (severity f) "medium") red_flags in
      let low :=
        List.filter (λ f, Py.eq_str (severity f) "low") red_flags in
      let html := "" in
      let html :=
        match critical with
        | [] => html
        | _ :: _ =>
            flag_section t html (critical_header t (length critical)) critical
        end in
      let html :=
        match high with
        | [] => html
        | _ :: _ => flag_section t html (high_header t (length high)) high
        end in
      let html :=
        match medium with
        | [] => html
        | _ :: _ =>
            (* Limit to top 3 *)
            flag_section t html (medium_header t (length medium))
              (take 3 medium)
        end in
      html
  end.

(** The status block of [generate_single_claim_analysis]: colour,
    background colour, icon and status text. *)
Definition status_style (status : string)
    : string * string * string * string :=
  if String.eqb status "verified" then
    ("#4CAF50", "#e8f5e9", "✅", "VERIFIED")
  else if String.eqb status "partial" then
    ("#FF9800", "#fff3e0", "⚠️", "PARTIALLY VERIFIED")
  else ("#f44336", "#ffebee", "❌", "UNVERIFIED").

(** [claim_text[:100] + "..." if len(claim_text) > 100 else claim_text]. *)
Definition display_text (claim_text : string) : string :=
  if (100 <? String.length claim_text)%nat
  then String.substring 0 100 claim_text +:+ "..."
  else claim_text.

(** The values that the text template of [generate_single_claim_analysis]
    interpolates. *)
Record ClaimView := {
  cv_bg_color : string;
  cv_color : string;
  cv_icon : string;
  cv_display_text : string;
  cv_status_text : string;
  cv_score : Q;
  cv_verifiability : string;
  cv_category : string;
  cv_has_metrics : string;
  cv_has_links : string
}.

(** [generate_single_claim_analysis], for the text template [template]. *)
Definition generate_single_claim_analysis (template : ClaimView → string)
    (claim : Claim) (validation : ValidationRecord) : string :=
  let status := Py.get (verification_status validation) "unknown" in
  let score := Py.get (final_evidence_score validation) 0%Q in
  let '(color, bg_color, icon, status_text) := status_style status in
  let claim_text := Py.get (claim_text claim) "Unknown claim" in
  let display_text := display_text claim_text in
  template
    {| cv_bg_color := bg_color;
       cv_color := color;
       cv_icon := icon;
       cv_display_text := display_text;
       cv_status_text := status_text;
       cv_score := score;
       cv_verifiability := Py.get (verifiability_level claim) "Unknown";
       cv_category := Py.get (category claim) "Unknown";
       cv_has_metrics :=
         match quantifiable_metrics claim with
         | Some m => if Py.truthy m then "Yes" else "No"
         | None => "No"
         end;
       cv_has_links :=
         match links_artifacts claim with
         | Some (_ :: _) => "Yes"
         | _ => "No"
         end |}.

End AppViews.

(* ===================================================================== *)
(** ** [src/app.py]: [initialize_session] *)
(* ===================================================================== *)

Module AppSession.
Section WithClient.
(** The client object of the language-model service. *)
Context {Client : Type}.

(** The two calls [initialize_session] makes: building a client from a
    key, and one test generation whose answer is the response text
    ([None] for no response). *)
Record Gemini := {
  connect : string → outcome Client;
  generate_content : Client → string → outcome (option string)
}.

(** [current_session]: the entries the analysis uses, the client and the
    key. *)
Record Session := {
  world : App.World;
  gemini_client : option Client;
  api_key : option string
}.

(** White space of [str.strip()], on ASCII text. *)
Definition is_space (c : Ascii.ascii) : bool :=
  let n := Ascii.nat_of_ascii c in
  (n =? 32)%nat || ((9 <=? n)%nat && (n <=? 13)%nat)
  || ((28 <=? n)%nat && (n <=? 31)%nat).

Fixpoint lstrip (s : string) : string :=
  match s with
  | EmptyString => EmptyString
  | String c s' => if is_space c then lstrip s' else s
  end.

(** [s.strip()]. *)
Definition strip (s : string) : string :=
  String.rev (lstrip (String.rev (lstrip s))).

Definition set_initialized (w : App.World) : App.World :=
  {| App.initialized := true;
     App.last_analysis := App.last_analysis w;
     App.heap := App.heap w;
     App.log := App.log w |}.

Definition initialization_failed (e : string) : string :=
  "❌ Initialization failed: " +:+ e +:+ Py.NL +:+ Py.NL +:+
  "Please check your API key at https://makersuite.google.com/app/apikey".

(** [initialize_session]. *)
Definition initialize_session (g : Gemini) (key : string) (mock_mode : bool)
    (s : Session) : (bool * string) * Session :=
  if negb (Py.truthy key) || String.eqb (strip key) "" then
    ((false, "❌ Please enter a valid API key"), s)
  else
    match connect g (strip key) with
    | Raise e => ((false, initialization_failed e), s)
    | Ok client =>
        match generate_content g client "Say 'OK' if you can read this" with
        | Raise e => ((false, initialization_failed e), s)
        | Ok test_response =>
            if match test_response with
               | Some text => Py.truthy text
               | None => false
               end
            then
              ((true,
                "✅ Session initialized successfully! You can now upload and analyze resumes."),
               {| world := set_initialized (world s);
                  gemini_client := Some client;
                  api_key := Some key |})
            else ((false, "❌ Failed to connect to Gemini API"), s)
        end
    end.

End WithClient.
Arguments Gemini : clear implicits.
Arguments Session : clear implicits.
End AppSession.

(* ===================================================================== *)
(** ** [src/api.py]: [POST /api/export] *)
(* ===================================================================== *)

Module ApiExport.

Local Unset Elimination Schemes.
(** A JSON value, as [request.get_json()] returns it. *)
Inductive json :=
| JNull
| JBool (b : bool)
| JNum (q : Q)
| JStr (s : string)
| JArr (items : list json)
| JObj (fields : list (string * json)).
Local Set Elimination Schemes.

(** Truth value of a JSON value. *)
Definition truthy (j : json) : bool :=
  match j with
  | JNull => false
  | JBool b => b
  | JNum q => negb (Qeq_bool q 0)
  | JStr s => Py.truthy s
  | JArr items => match items with [] => false | _ :: _ => true end
  | JObj fields => match fields with [] => false | _ :: _ => true end
  end.

(** The two report generators, which fail on a body of the wrong shape,
    the text that [json.dump] writes, the clock and the temporary files:
    [NamedTemporaryFile suffix] is
    [tempfile.NamedTemporaryFile(mode='w', delete=False, suffix=suffix)],
    which creates a file and returns its path, or raises and creates
    nothing; [write path content] and [close path] are the methods of the
    file object, which return or raise. *)
Record Renderers := {
  generate_html_report : json → outcome string;
  generate_csv_report : json → outcome string;
  json_dump : json → string;
  timestamp : string;
  NamedTemporaryFile : string → outcome string;
  write : string → string → outcome unit;
  close : string → outcome unit
}.

(** What the endpoint sends: a JSON error with its status, or a file. *)
Inductive Sent :=
| SentError (error : string) (status : Z)
| SentFailed (error message : string) (status : Z)
| SentFile (path download_name mimetype : string).

(** The four statements each format ends with: a new temporary file,
    [content] written to it ([temp_file.write(content)], or [json.dump]
    into the file), the file closed, and [send_file].  A failure after
    the first leaves the file behind. *)
Definition send_export (rd : Renderers) (suffix mimetype content : string)
    : Api.M Sent :=
  do temp_file <- Exn.lift (NamedTemporaryFile rd suffix);
  run Api.record_event (Model.EvCreateTemp temp_file);
  run Api.call (Model.EvWriteFile temp_file content)
        (write rd temp_file content);
  run Exn.lift (close rd temp_file);
  Exn.ret (SentFile temp_file
             ("resume_analysis_" +:+ timestamp rd +:+ suffix) mimetype).

(** [export_report]; [args] is the query string and [body] the result of
    [request.get_json()]. *)
Definition export_report (rd : Renderers) (args : gmap string string)
    (body : outcome json) : Api.M Sent :=
  Exn.try_except
    (let export_format := Py.lower (default "html" (args !! "format")) in
     if negb (bool_decide (export_format ∈ ["html"; "json"; "csv"])) then
       Exn.ret (SentError "Invalid format. Must be: html, json, or csv" 400%Z)
     else
       do results <- Exn.lift body;
       if negb (truthy results) then
         Exn.ret (SentError "No analysis results provided" 400%Z)
       else if String.eqb export_format "html" then
         do html_content <- Exn.lift (generate_html_report rd results);
         send_export rd ".html" "text/html" html_content
       else if String.eqb export_format "json" then
         send_export rd ".json" "application/json" (json_dump rd results)
       else
         do csv_content <- Exn.lift (generate_csv_report rd results);
         send_export rd ".csv" "text/csv" csv_content)
    (λ e, Exn.ret (SentFailed "Export failed" e 500%Z)).

End ApiExport.

(* ===================================================================== *)
(** ** Runs of the Flask endpoint *)
(* ===================================================================== *)

Module ApiRuns.
Import Model.

(** A request that passes the four checks at the head of
    [analyze_resume]; [file] is its upload. *)
Definition accepted (req : Api.Request) (file : Api.FileUpload) : Prop :=
  Api.files req !! "file" = Some file
  ∧ Api.filename file ≠ ""
  ∧ Api.seniority req ∈ Api.valid_seniority
  ∧ Api.strictness req ∈ Api.valid_strictness.

(** [get_gemini_client] will return: the client exists or the key is
    set. *)
Definition client_available (env : Api.Env) (w : Api.World) : Prop :=
  Api.gemini_client w = true ∨ Api.GEMINI_API_KEY env ≠ "".

(** The upload is stored in the temporary file [path]: the file is
    created, the content saved and the file closed. *)
Definition upload_stored (env : Api.Env) (file : Api.FileUpload)
    (path : string) : Prop :=
  Api.NamedTemporaryFile env (Api.filename file) = Ok path
  ∧ Api.save file path = Ok tt
  ∧ Api.close env path = Ok tt.

(** The answer of the endpoint to an exception with the text [e]. *)
Definition analysis_failed (env : Api.Env) (e : string) : Api.Response :=
  (Api.JFailed "Analysis failed" e
     (if Api.debug env then Some (Api.format_exc env e) else None),
   500%Z).

(** The shapes of a response: results with 200, a request or no-claims
    error with 400, a failed analysis with 500. *)
Definition well_formed (r : Api.Response) : bool :=
  match r with
  | (Api.JResults _, status) => (status =? 200)%Z
  | (Api.JError _, status) => (status =? 400)%Z
  | (Api.JNoClaims _ _, status) => (status =? 400)%Z
  | (Api.JFailed error _ _, status) =>
      String.eqb error "Analysis failed" && (status =? 500)%Z
  end.

(** The events of a run from [w] to [w']. *)
Definition new_events (w w' : Api.World) : list Event :=
  drop (length (Api.log w)) (Api.log w').

(** The four stages answer on the inputs the endpoint gives them, for
    the upload stored in [path]. *)
Definition completes (st : Stages) (req : Api.Request) (path : string)
    (doc : ParsedDocument) (cr : ClaimsResult)
    (text : string) (vr : ValidationResult) (rr : RedFlagResult) : Prop :=
  parse st path = Ok doc
  ∧ extract_claims st doc (Api.seniority req) = Ok cr
  ∧ cr_claims cr ≠ []
  ∧ raw_text doc = Some text
  ∧ validate_evidence st (cr_claims cr) text
      (Api.deep_analysis req) (Api.deep_analysis req) = Ok vr
  ∧ detect_red_flags st (Api.strictness req) (Runs.bundle_of cr vr)
      (Api.seniority req) = Ok rr.

End ApiRuns.

(* ===================================================================== *)
(** ** Vocabulary for the display *)
(* ===================================================================== *)

Module ViewSpec.
Import Model.

(** The severities that [generate_detailed_red_flag_analysis] renders. *)
Definition rendered_severity (f : RedFlag) : bool :=
  Py.eq_str (severity f) "critical" || Py.eq_str (severity f) "high"
  || Py.eq_str (severity f) "medium".

(** The key under which a claim is looked up in [validation_map]. *)
Definition lookup_key (claim : Claim) : string :=
  Py.get (claim_id claim) "".

(** A claim paired with the record found under its [claim_id]. *)
Definition paired (m : gmap string ValidationRecord) (claim : Claim)
    : Claim * ValidationRecord :=
  (claim, App.lookup_validation m claim).

(** The validation records that carry the [claim_id] of a claim, in the
    order of the list.  A claim without [claim_id], or with the empty
    one, has none. *)
Definition records_of (validations : list ValidationRecord) (claim : Claim)
    : list ValidationRecord :=
  filter (λ v, lookup_key claim ≠ ""
               ∧ val_claim_id v = Some (lookup_key claim))
         validations.

(** The record a claim is paired with: the record that carries its
    [claim_id], the last one when there are several, and the empty record
    when there is none.  The position of the claim plays no part. *)
Definition record_of (validations : list ValidationRecord) (claim : Claim)
    : ValidationRecord :=
  default empty_validation (last (records_of validations claim)).

Definition with_record (validations : list ValidationRecord) (claim : Claim)
    : Claim * ValidationRecord :=
  (claim, record_of validations claim).

(** The category a pair is shown under. *)
Definition category_of (item : Claim * ValidationRecord) : string :=
  Py.get (category item.1) "other".

(** The keys of a list, each once, in the order of first appearance. *)
Fixpoint first_occurrences (keys : list string) : list string :=
  match keys with
  | [] => []
  | k :: rest => k :: filter (λ k', k' ≠ k) (first_occurrences rest)
  end.

(** The pairs by category: the categories in the order of first
    appearance, each with its pairs in the order of the list. *)
Definition by_category (items : list (Claim * ValidationRecord))
    : list (string * list (Claim * ValidationRecord)) :=
  (λ k, (k, filter (λ item, category_of item = k) items))
    <$> first_occurrences (category_of <$> items).

(** Texts one after the other. *)
Definition one_text (texts : list string) : string :=
  foldr String.append "" texts.

(** A category of the claim-by-claim analysis: its header with the number
    of its pairs, then its first five pairs. *)
Definition category_section (pr : App.Presentation)
    (group : string * list (Claim * ValidationRecord)) : string :=
  App.category_header pr group.1 (length group.2)
  +:+ one_text ((λ item, App.generate_single_claim_analysis pr item.1 item.2)
                <$> take 5 group.2).

(** The claim-by-claim analysis: the first twenty claims, each with the
    record that carries its [claim_id], by category. *)
Definition claim_analysis (pr : App.Presentation) (claims : list Claim)
    (validations : list ValidationRecord) : string :=
  match claims with
  | [] => "<p>No claims found to analyze.</p>"
  | _ :: _ =>
      (App.claims_header pr (length claims)
       +:+ one_text (category_section pr
                     <$> by_category
                           (with_record validations <$> take 20 claims)))
      +:+ "</div>"
  end.

(** The four figures of a successful [visualise], or four [None]. *)
Definition figures (pr : App.Presentation) (claims : list Claim)
    (vr : ValidationResult) (rr : RedFlagResult) (consistency : Q)
    : option App.Fig * option App.Fig * option App.Fig * option App.Fig :=
  match
    App.create_evidence_heatmap pr (vr_validations vr) claims,
    App.create_credibility_dashboard pr
      {| App.ds_final := rf_final_score rr;
         App.ds_credibility := rf_credibility_score rr;
         App.ds_consistency := consistency;
         App.ds_risk_level := rf_risk_assessment rr |}
      (rf_red_flags rr),
    App.create_claim_distribution pr claims,
    App.create_validation_summary pr (vr_validations vr) claims
  with
  | Ok h, Ok d, Ok c, Ok v => (Some h, Some d, Some c, Some v)
  | _, _, _, _ => (None, None, None, None)
  end.

(** A key made of white space only. *)
Definition blank (key : string) : Prop :=
  Forall (λ c, AppSession.is_space c = true)
         (String.list_ascii_of_string key).

(** The export format as [POST /api/export] reads it. *)
Definition export_format (args : gmap string string) : string :=
  Py.lower (default "html" (args !! "format")).

(** The content of the file exported in a format, and its MIME type. *)
Definition export_content (rd : ApiExport.Renderers) (format : string)
    (results : ApiExport.json) : outcome string :=
  if String.eqb format "html" then ApiExport.generate_html_report rd results
  else if String.eqb format "json" then Ok (ApiExport.json_dump rd results)
  else ApiExport.generate_csv_report rd results.

Definition mimetype_of (format : string) : string :=
  if String.eqb format "html" then "text/html"
  else if String.eqb format "json" then "application/json"
  else "text/csv".

(** The export is written to the temporary file [path]: the file is
    created, the content written and the file closed. *)
Definition export_written (rd : ApiExport.Renderers)
    (suffix content path : string) : Prop :=
  ApiExport.NamedTemporaryFile rd suffix = Ok path
  ∧ ApiExport.write rd path content = Ok tt
  ∧ ApiExport.close rd path = Ok tt.

End ViewSpec.

(* ===================================================================== *)
(** ** More sample data *)
(* ===================================================================== *)

Module Samples.
Import Model.

(** The stages of the sample run. *)
Definition stages : Stages :=
  Fixtures.stages Fixtures.document Fixtures.sample_claims 0.88%Q.

(** The same stages with a validator that fails. *)
Definition stages_failing_validator : Stages :=
  {| parse := parse stages;
     extract_claims := extract_claims stages;
     validate_evidence := λ _ _ _ _, Raise "oracle timeout";
     detect_red_flags := detect_red_flags stages |}.

Definition claims_result : ClaimsResult :=
  {| cr_claims := Fixtures.sample_claims;
     cr_metrics := Fixtures.sample_metrics |}.

Definition validation_result : ValidationResult :=
  {| vr_validations := Fixtures.sample_validations;
     vr_consistency_score := 0.88%Q |}.

Definition sample_text : string :=
  "Experience: Led a team of 5 engineers at Example Corp from 2019 to 2023. Skills: Python. Education: BSc, Example Univ.".

Definition request_without_file : Api.Request :=
  {| Api.files := ∅; Api.form := ∅ |}.

Definition env_without_key : Api.Env :=
  {| Api.GEMINI_API_KEY := "";
     Api.debug := false;
     Api.now_iso := "2024-01-01T00:00:00";
     Api.NamedTemporaryFile := λ name, Ok ("/tmp/upload_" +:+ name);
     Api.close := λ _, Ok tt;
     Api.format_exc := λ e, "Traceback: " +:+ e |}.

(** An upload whose content cannot be written. *)
Definition upload_unsaved : Api.FileUpload :=
  {| Api.filename := "cv.pdf";
     Api.save := λ _, Raise "[Errno 28] No space left on device" |}.

Definition request_unsaved : Api.Request :=
  {| Api.files := {["file" := upload_unsaved]}; Api.form := ∅ |}.


(** The result the sample run stores. *)
Definition sample_result : App.AnalysisResult :=
  Runs.constructed Fixtures.presentation Fixtures.document claims_result
    validation_result Fixtures.sample_flags "Mid".

(** A second record for the first claim, and a claim without id. *)
Definition validation_lead_late : ValidationRecord :=
  {| val_claim_id := Some "claim_1";
     verification_status := Some "unverified";
     evidence_present := Some "none";
     final_evidence_score := Some 0.1%Q |}.

Definition claim_anonymous : Claim :=
  {| claim_id := None;
     claim_text := Some "Improved performance";
     category := None;
     verifiability_level := Some "low";
     quantifiable_metrics := None;
     links_artifacts := None |}.

Definition flag_low : RedFlag :=
  {| flag_category := Some "vague";
     severity := Some "low";
     description := Some "Vague wording";
     interview_probe := None |}.

Definition flag_critical : RedFlag :=
  {| flag_category := Some "timeline";
     severity := Some "critical";
     description := Some "Overlapping full-time roles";
     interview_probe := Some "Which role was full time in 2020?" |}.

Definition flag_templates : AppViews.FlagTemplates :=
  {| AppViews.no_issues_banner := "No Critical Issues Detected";
     AppViews.critical_header :=
       λ n, "<h3>Critical Issues (" +:+ pretty n +:+ ")</h3>";
     AppViews.high_header :=
       λ n, "<h3>High Priority Issues (" +:+ pretty n +:+ ")</h3>";
     AppViews.medium_header :=
       λ n, "<h3>Medium Priority Issues (" +:+ pretty n +:+ ")</h3>";
     AppViews.generate_single_flag_html :=
       λ f, "<h4>" +:+ Py.get (description f) "Issue detected" +:+ "</h4>" |}.

Definition claim_template (v : AppViews.ClaimView) : string :=
  AppViews.cv_icon v +:+ " " +:+ AppViews.cv_display_text v +:+ ": "
  +:+ AppViews.cv_status_text v.

(** A service that accepts every key and answers the test. *)
Definition gemini : AppSession.Gemini string :=
  {| AppSession.connect := λ key, Ok key;
     AppSession.generate_content := λ _ _, Ok (Some "OK") |}.

(** The Gradio session at start-up. *)
Definition session_at_start : AppSession.Session string :=
  {| AppSession.world :=
       {| App.initialized := false; App.last_analysis := None;
          App.heap := []; App.log := [] |};
     AppSession.gemini_client := None;
     AppSession.api_key := None |}.

Definition renderers : ApiExport.Renderers :=
  {| ApiExport.generate_html_report := λ _, Ok "<html></html>";
     ApiExport.generate_csv_report := λ _, Ok "Metric,Value";
     ApiExport.json_dump := λ _, "{}";
     ApiExport.timestamp := "20240101_000000";
     ApiExport.NamedTemporaryFile := λ suffix, Ok ("/tmp/export" +:+ suffix);
     ApiExport.write := λ _ _, Ok tt;
     ApiExport.close := λ _, Ok tt |}.

(** The same, on a file system where a surrogate cannot be encoded. *)
Definition renderers_failing_write : ApiExport.Renderers :=
  {| ApiExport.generate_html_report := λ _, Ok "<html></html>";
     ApiExport.generate_csv_report := λ _, Ok "Metric,Value";
     ApiExport.json_dump := λ _, "{}";
     ApiExport.timestamp := "20240101_000000";
     ApiExport.NamedTemporaryFile := λ suffix, Ok ("/tmp/export" +:+ suffix);
     ApiExport.write :=
       λ _ _, Raise "'utf-8' codec can't encode character: surrogates not allowed";
     ApiExport.close := λ _, Ok tt |}.

Definition results_body : ApiExport.json :=
  ApiExport.JObj [("final_score", ApiExport.JNum 60.2%Q)].

End Samples.

(* ===================================================================== *)
(** ** Score normalisation *)
(* ===================================================================== *)

Section Scores.
Local Open Scope Q_scope.

Lemma Qle_bool_false (x y : Q) : Qle_bool x y = false → y < x.
Proof.
  intros H. apply Qnot_le_lt. intros Hle.
  apply Qle_bool_iff in Hle. congruence.
Qed.

(** Turns every comparison of the goal into a fact about [<=] or [<]. *)
Ltac cmp :=
  unfold Py.min, Py.gt, Py.lt, Py.le;
  repeat match goal with
    | |- context [Qle_bool ?a ?b] =>
        let E := fresh "E" in
        destruct (Qle_bool a b) eqn:E;
        [apply Qle_bool_iff in E | apply Qle_bool_false in E];
        cbn [negb]
    end.

Lemma min_100_clamp (x : Q) : x <= 100 → Py.min 100 x == x.
Proof. intros H. cmp; lra. Qed.

Lemma min_100_le (x : Q) : Py.min 100 x <= 100.
Proof. cmp; lra. Qed.

Lemma app_normalize_le_100 (s : Q) : App.normalize_score s <= 100.
Proof. unfold App.normalize_score. cmp; lra. Qed.

Lemma round_half_even_le (x : Q) (n : Z) :
  x <= inject_Z n → (Py.round_half_even x <= n)%Z.
Proof.
  intros H. unfold Py.round_half_even.
  pose proof (Qfloor_le x) as Hfl.
  assert (Hf : (Qfloor x <= n)%Z).
  { rewrite <- (Qfloor_Z n). by apply Qfloor_resp_le. }
  destruct (Z.eq_dec (Qfloor x) n) as [Heq | Hne].
  - assert (Hlt : x - inject_Z (Qfloor x) < 1 # 2).
    { rewrite Heq. lra. }
    destruct (Qcompare_spec (x - inject_Z (Qfloor x)) (1 # 2));
      [lra | lia | lra].
  - destruct (Qcompare _ _); [destruct (Z.even _) | |]; lia.
Qed.

Lemma round1_le_100 (x : Q) : x <= 100 → Py.round1 x <= 100.
Proof.
  intros H. unfold Py.round1.
  assert (Hz : (Py.round_half_even (x * 10) <= 1000)%Z).
  { apply round_half_even_le. change (inject_Z 1000) with 1000. lra. }
  apply Qle_shift_div_r; [reflexivity |].
  change (100 * 10) with (inject_Z 1000). by rewrite <- Zle_Qle.
Qed.

(** The value the Gradio front end stores is never above 100. *)
Lemma stored_consistency_le_100 (raw : Q) :
  Py.round1 (App.normalize_score raw) <= 100.
Proof. apply round1_le_100, app_normalize_le_100. Qed.

(** C2, as the code has it: an input above 100 is divided by 100, so
    [normalize_score] applied to 250 returns 2.5 in both front ends. *)
Theorem normalize_250 :
  Api.normalize_score 250 == 2.5 ∧ App.normalize_score 250 == 2.5.
Proof. split; vm_compute; reflexivity. Qed.

(** C2 as stated (the result for 250 is 100) does not hold. *)
Lemma normalize_250_is_not_100 :
  ¬ (Api.normalize_score 250 == 100) ∧ ¬ (App.normalize_score 250 == 100).
Proof. split; vm_compute; discriminate. Qed.

(** C3: every input [s <= 1] takes the branch that multiplies by 100. *)
Theorem normalize_fraction (s : Q) :
  s <= 1 →
  Api.normalize_score s = s * 100 ∧ App.normalize_score s = s * 100.
Proof.
  intros H. unfold Api.normalize_score, App.normalize_score.
  assert (Hgt : Py.gt s 100 = false).
  { unfold Py.gt. apply negb_false_iff, Qle_bool_iff. lra. }
  assert (Hle : Py.le s 1 = true) by by apply Qle_bool_iff.
  by rewrite Hgt, Hle.
Qed.

(** C3 at its two named inputs: 0.85 gives 85 and the boundary 1 gives
    100. *)
Lemma normalize_fraction_witness :
  (0.85 <= 1 ∧ Api.normalize_score 0.85 == 85
   ∧ App.normalize_score 0.85 == 85)
  ∧ (1 <= 1 ∧ Api.normalize_score 1 == 100 ∧ App.normalize_score 1 == 100).
Proof.
  assert (H85 : 0.85 <= 1) by (vm_compute; discriminate).
  assert (H1 : 1 <= 1) by (vm_compute; discriminate).
  destruct (normalize_fraction 0.85 H85) as [Ha Hb].
  destruct (normalize_fraction 1 H1) as [Hc Hd].
  rewrite Ha, Hb, Hc, Hd.
  repeat split; try assumption; reflexivity.
Defined.

(** C4, as the code has it: on the range [0,100] the fixed points of
    [normalize_score] are 0 and the scores above 1; a score in (0,1] is
    multiplied by 100. *)
Theorem normalize_fixed_points (s : Q) :
  0 <= s → s <= 100 →
  (Api.normalize_score s == s ↔ s == 0 ∨ 1 < s)
  ∧ (App.normalize_score s == s ↔ s == 0 ∨ 1 < s).
Proof.
  intros H0 H100. unfold Api.normalize_score, App.normalize_score.
  split; cmp; split; intros; try lra;
    destruct (Qlt_le_dec 0 s); (left + right); lra.
Qed.

(** The score 42 is in range and above 1: it is returned as it is. *)
Lemma normalize_fixed_points_witness :
  0 <= 42 ∧ 42 <= 100
  ∧ Api.normalize_score 42 == 42 ∧ App.normalize_score 42 == 42.
Proof.
  assert (H0 : 0 <= 42) by (vm_compute; discriminate).
  assert (H100 : 42 <= 100) by (vm_compute; discriminate).
  assert (H1 : 1 < 42) by reflexivity.
  destruct (normalize_fixed_points 42 H0 H100) as [Ha Hb].
  exact (conj H0 (conj H100 (conj (proj2 Ha (or_intror H1))
                                  (proj2 Hb (or_intror H1))))).
Defined.

(** C4 as stated fails at 0.5: it lies in [0,100], is not 1, and is sent
    to 50. *)
Lemma normalize_not_idempotent_below_1 :
  0 <= 0.5 ∧ 0.5 <= 100 ∧ ¬ (0.5 == 1)
  ∧ ¬ (Api.normalize_score 0.5 == 0.5) ∧ ¬ (App.normalize_score 0.5 == 0.5)
  ∧ App.normalize_score 0.5 == 50.
Proof. repeat split; vm_compute; discriminate. Qed.

(** C10: the two copies of [normalize_score] are the same function. *)
Theorem normalize_score_api_app (s : Q) :
  Api.normalize_score s = App.normalize_score s.
Proof.
  unfold Api.normalize_score, App.normalize_score.
  destruct (Py.gt s 100); [reflexivity |].
  destruct (Py.le s 1); reflexivity.
Qed.

End Scores.

(* ===================================================================== *)
(** ** Derived counts *)
(* ===================================================================== *)

Section Counts.
Import Model Invariants.

Lemma eq_str_true (x : option string) (s : string) :
  Py.eq_str x s = true ↔ x = Some s.
Proof.
  destruct x as [y |]; simpl; [| by split].
  rewrite String.eqb_eq. split; [by intros -> | by intros [= ->]].
Qed.

Lemma eq_str_false (x : option string) (s : string) :
  Py.eq_str x s = false ↔ x ≠ Some s.
Proof.
  rewrite <- eq_str_true. by destruct (Py.eq_str x s).
Qed.

(** [sum(1 for v in l if p v)] is the number of elements that satisfy [p]:
    the sum has one summand 1 for each of them. *)
Lemma count_filter {A} (p : A → bool) (P : A → Prop)
    `{!∀ x, Decision (P x)} (l : list A) :
  (∀ x, p x = true ↔ P x) →
  Py.count p l = length (filter P l).
Proof.
  intros Hp. unfold Py.count.
  induction l as [| x l IH]; [reflexivity |].
  rewrite filter_cons. cbn [List.filter].
  destruct (p x) eqn:E.
  - rewrite decide_True by by apply Hp.
    cbn. by f_equal.
  - rewrite decide_False; [exact IH |].
    intros HP. apply Hp in HP. congruence.
Qed.

Lemma count_verified_filter (validations : list ValidationRecord) :
  count_verified validations =
  length (filter (λ v, verification_status v = Some "verified") validations).
Proof. apply count_filter. intros v. apply eq_str_true. Qed.

Lemma count_unverified_filter (validations : list ValidationRecord) :
  count_unverified validations =
  length (filter (λ v, verification_status v = Some "unverified"
                       ∨ verification_status v = Some "red_flag")
                 validations).
Proof.
  apply count_filter. intros v.
  rewrite orb_true_iff, !eq_str_true. reflexivity.
Qed.

(** With the four statuses, every record is counted once: as verified, as
    unverified, or as partial. *)
Lemma counts_partition (validations : list ValidationRecord) :
  Forall valid_status validations →
  count_verified validations + count_unverified validations
  + length (filter (λ v, verification_status v = Some "partial") validations)
  = length validations.
Proof.
  rewrite count_verified_filter, count_unverified_filter.
  induction 1 as [| v l Hv _ IH]; [reflexivity |].
  rewrite !filter_cons. unfold valid_status in Hv.
  repeat (apply elem_of_cons in Hv as [Hv | Hv]);
    [| | | | by apply elem_of_nil in Hv];
    rewrite Hv;
    repeat match goal with
      | |- context [decide ?P] =>
          first
            [ rewrite (decide_True (P := P))
                by first [reflexivity | left; reflexivity | right; reflexivity]
            | rewrite (decide_False (P := P))
                by first [discriminate | intros [? | ?]; discriminate] ]
      end;
    cbn [length]; lia.
Qed.

(** One record per claim: there are at most as many records as claims. *)
Lemma keyed_length (claims : list Claim)
    (validations : list ValidationRecord) :
  keyed_by_claims claims validations → length validations ≤ length claims.
Proof.
  intros [Hnd Hin].
  rewrite <- (length_fmap val_claim_id validations).
  rewrite <- (length_fmap claim_id claims).
  apply submseteq_length, NoDup_submseteq; [exact Hnd |].
  intros k Hk. apply list_elem_of_fmap in Hk as (v & -> & Hv).
  by eapply Forall_forall in Hin.
Qed.

Lemma counts_spec_holds (validations : list ValidationRecord) :
  Forall valid_status validations →
  counts_spec validations
    (count_verified validations) (count_unverified validations).
Proof.
  intros Hst. unfold counts_spec.
  pose proof (counts_partition validations Hst) as Hpart.
  split; [apply count_verified_filter |].
  split; [apply count_unverified_filter | exact Hpart].
Qed.

(** C5: in the result of either front end, for validation records with
    the four statuses, [verified_claims] is the number of records with
    status verified, [unverified_claims] the number with status unverified
    or red_flag, and a partial record is in neither count, so the two
    counts together never exceed the number of validation records.
    [total_claims] is the number of claims: the two counts together do not
    exceed it when the validation records are keyed by the claims, one
    record per [claim_id]. *)
Theorem derived_counts
    (pr : App.Presentation) (env : Api.Env) (req : Api.Request)
    (file : Api.FileUpload) (doc : ParsedDocument)
    (claims_result : ClaimsResult) (validation_result : ValidationResult)
    (red_flag_result : RedFlagResult) (level : string)
    (final credibility consistency : Q) :
  let validations := vr_validations validation_result in
  let app_result :=
    App.compile_results pr doc claims_result validation_result
      red_flag_result level final credibility consistency in
  let api_result :=
    Api.compile_results env req file claims_result validation_result
      red_flag_result final credibility consistency in
  Forall valid_status validations →
  (counts_spec validations
     (App.verified_claims app_result) (App.unverified_claims app_result)
   ∧ counts_spec validations
       (Api.verified_claims api_result) (Api.unverified_claims api_result))
  ∧ App.total_claims app_result = length (cr_claims claims_result)
  ∧ Api.total_claims api_result = length (cr_claims claims_result)
  ∧ App.verified_claims app_result + App.unverified_claims app_result
    ≤ length validations
  ∧ Api.verified_claims api_result + Api.unverified_claims api_result
    ≤ length validations
  ∧ (keyed_by_claims (cr_claims claims_result) validations →
     App.verified_claims app_result + App.unverified_claims app_result
     ≤ App.total_claims app_result
     ∧ Api.verified_claims api_result + Api.unverified_claims api_result
       ≤ Api.total_claims api_result).
Proof.
  intros validations app_result api_result Hst.
  pose proof (counts_spec_holds validations Hst) as Hspec.
  assert (Hle : count_verified validations + count_unverified validations
                ≤ length validations).
  { destruct Hspec as (_ & _ & Hpart). lia. }
  split; [by split |].
  split; [reflexivity |]. split; [reflexivity |].
  split; [exact Hle |]. split; [exact Hle |].
  intros Hkey.
  pose proof (keyed_length _ _ Hkey) as Hlen.
  split; exact (Nat.le_trans _ _ _ Hle Hlen).
Qed.

(** The sample data: two claims, one record verified and one partial, give
    the counts 1 and 0 out of 2. *)
Lemma derived_counts_witness :
  Forall valid_status Fixtures.sample_validations
  ∧ keyed_by_claims Fixtures.sample_claims Fixtures.sample_validations
  ∧ counts_spec Fixtures.sample_validations 1 0
  ∧ 1 + 0 ≤ 2.
Proof.
  assert (Hst : Forall valid_status Fixtures.sample_validations).
  { repeat constructor. }
  assert (Hkey : keyed_by_claims Fixtures.sample_claims
                   Fixtures.sample_validations).
  { split; [apply (bool_decide_unpack _); vm_compute; reflexivity |].
    repeat constructor. }
  destruct
    (derived_counts Fixtures.presentation Fixtures.env (Fixtures.request [])
       Fixtures.upload Fixtures.document
       {| cr_claims := Fixtures.sample_claims;
          cr_metrics := Fixtures.sample_metrics |}
       {| vr_validations := Fixtures.sample_validations;
          vr_consistency_score := 0.88%Q |}
       Fixtures.sample_flags "mid" 60.2%Q 100%Q 88%Q Hst)
    as ((Happ & _) & _ & _ & _ & _ & Hbound).
  exact (conj Hst (conj Hkey (conj Happ (proj1 (Hbound Hkey))))).
Defined.

(** C5 as stated fails when two validation records belong to one claim:
    with one claim and two verified records, [verified_claims] is 2 and
    [total_claims] is 1, in both front ends. *)
Lemma derived_counts_exceed_total :
  let claims_result :=
    {| cr_claims := [Fixtures.claim_lead];
       cr_metrics := Fixtures.sample_metrics |} in
  let validation_result :=
    {| vr_validations := [Fixtures.validation_lead; Fixtures.validation_lead];
       vr_consistency_score := 0.88%Q |} in
  let app_result :=
    App.compile_results Fixtures.presentation Fixtures.document
      claims_result validation_result Fixtures.sample_flags "mid"
      60.2%Q 100%Q 88%Q in
  let api_result :=
    Api.compile_results Fixtures.env (Fixtures.request []) Fixtures.upload
      claims_result validation_result Fixtures.sample_flags
      60.2%Q 100%Q 88%Q in
  Forall valid_status (vr_validations validation_result)
  ∧ App.verified_claims app_result = 2
  ∧ App.total_claims app_result = 1
  ∧ ¬ (App.verified_claims app_result + App.unverified_claims app_result
       ≤ App.total_claims app_result)
  ∧ Api.verified_claims api_result = 2
  ∧ Api.total_claims api_result = 1
  ∧ ¬ (Api.verified_claims api_result + Api.unverified_claims api_result
       ≤ Api.total_claims api_result).
Proof.
  cbn zeta.
  split; [repeat constructor |].
  repeat split; try (vm_compute; reflexivity); vm_compute; lia.
Qed.

End Counts.

(* ===================================================================== *)
(** ** Claims and their validation records *)
(* ===================================================================== *)

Section Pairing.
Import Model.

Lemma truthy_true (s : string) : Py.truthy s = true ↔ s ≠ "".
Proof.
  unfold Py.truthy. rewrite negb_true_iff, String.eqb_neq. reflexivity.
Qed.

(** One more turn of the loop that fills [validation_map]. *)
Lemma build_validation_map_snoc (validations : list ValidationRecord)
    (val : ValidationRecord) :
  App.build_validation_map (validations ++ [val]) =
  let claim_id := Py.get (val_claim_id val) "" in
  if Py.truthy claim_id
  then <[claim_id := val]> (App.build_validation_map validations)
  else App.build_validation_map validations.
Proof. unfold App.build_validation_map. by rewrite foldl_app. Qed.



(** The grouping loop, one claim further. *)
Lemma group_claims_snoc (m : gmap string ValidationRecord)
    (claims : list Claim) (claim : Claim) :
  foldl (λ categories claim,
           App.categories_append (Py.get (category claim) "other")
             (claim, App.lookup_validation m claim) categories)
        [] (claims ++ [claim]) =
  App.categories_append (Py.get (category claim) "other")
    (claim, App.lookup_validation m claim)
    (foldl (λ categories claim,
              App.categories_append (Py.get (category claim) "other")
                (claim, App.lookup_validation m claim) categories)
           [] claims).
Proof. by rewrite foldl_app. Qed.

















End Pairing.

(* ===================================================================== *)
(** ** The stored analysis result *)
(* ===================================================================== *)

Section Session.
Import Model Invariants Runs.
Context (pr : App.Presentation).

Local Opaque Py.min Py.round1 App.normalize_score.

(** Unfolds the monadic operations of [src/app.py]. *)
Ltac step :=
  unfold App.call, App.record_event, App.alloc, App.deref, App.store,
    App.set_last_analysis, App.getitem_raw_text, App.write_export,
    Exn.bind, Exn.ret, Exn.lift, Exn.gets, Exn.modify, Exn.raise,
    Exn.try_except;
  cbn [fst snd App.initialized App.last_analysis App.heap App.log negb].

Lemma same_result_refl (r : App.AnalysisResult) : same_result r r.
Proof. unfold same_result. repeat split; reflexivity. Qed.

Lemma same_result_clamped (r0 r : App.AnalysisResult) :
  (App.consistency_score r <= 100)%Q →
  same_result r0 r → same_result r0 (clamped r).
Proof.
  intros Hle H. unfold same_result in *.
  destruct H as (? & ? & ? & ? & ? & ? & ? & Hc & ?).
  repeat split; try tauto.
  cbn. rewrite Hc. symmetry. by apply min_100_clamp.
Qed.

Lemma same_result_le_100 (r0 r : App.AnalysisResult) :
  same_result r0 r →
  (App.consistency_score r0 <= 100)%Q → (App.consistency_score r <= 100)%Q.
Proof.
  intros (_ & _ & _ & _ & _ & _ & _ & Hc & _) Hle. by rewrite <- Hc.
Qed.

(** The display writes the clamped score into the dictionary it is given
    and touches nothing else. *)
Lemma display_run (l : nat) (r : App.AnalysisResult) (w : App.World) :
  App.heap w !! l = Some r →
  App.generate_comprehensive_analysis_display pr l w =
  (Ok (App.display_template pr (clamped r)),
   {| App.initialized := App.initialized w;
      App.last_analysis := App.last_analysis w;
      App.heap := <[l := clamped r]> (App.heap w);
      App.log := App.log w |}).
Proof.
  intros Hr. unfold App.generate_comprehensive_analysis_display. step.
  rewrite Hr. step.
  rewrite list_lookup_insert_eq by by eapply lookup_lt_Some.
  reflexivity.
Qed.

(** An export writes the clamped score into the stored dictionary, and
    leaves the session slot and every other dictionary as they are. *)
Lemma export_run (format_type : string) (l : nat) (r : App.AnalysisResult)
    (w : App.World) :
  App.last_analysis w = Some l → App.heap w !! l = Some r →
  ∃ res events,
    App.export_report pr format_type w =
    (Ok res,
     {| App.initialized := App.initialized w;
        App.last_analysis := Some l;
        App.heap := <[l := clamped r]> (App.heap w);
        App.log := App.log w ++ events |}).
Proof.
  intros Hl Hr. unfold App.export_report. step.
  rewrite Hl, Hr. step.
  rewrite list_lookup_insert_eq by by eapply lookup_lt_Some.
  repeat match goal with
    | |- context [String.eqb format_type ?s] =>
        destruct (String.eqb format_type s)
    end;
    step; try (eexists _, [_]; rewrite Hl; reflexivity).
  exists None, []. by rewrite Hl, app_nil_r.
Qed.

(** Without a stored analysis an export fails and changes nothing. *)
Lemma export_nothing_stored (format_type : string) (w : App.World) :
  App.last_analysis w = None →
  App.export_report pr format_type w =
  (Ok (Some (None, "❌ Export failed: 'NoneType' object has no attribute 'get'")),
   w).
Proof. intros Hl. unfold App.export_report. step. by rewrite Hl. Qed.

(** The invariant of the session slot: it holds the address [l] of a
    dictionary that has the fields of [r0]. *)
Lemma run_op_preserves (l : nat) (r0 : App.AnalysisResult) (w : App.World)
    (op : later_op) :
  (App.consistency_score r0 <= 100)%Q →
  App.last_analysis w = Some l →
  (∃ r, App.heap w !! l = Some r ∧ same_result r0 r) →
  App.last_analysis (run_op pr w op) = Some l
  ∧ ∃ r, App.heap (run_op pr w op) !! l = Some r ∧ same_result r0 r.
Proof.
  intros Hle Hl (r & Hr & Hsame).
  assert (Hlt : l < length (App.heap w)) by by eapply lookup_lt_Some.
  assert (Hr100 : (App.consistency_score r <= 100)%Q)
    by by eapply same_result_le_100.
  destruct op as [| format_type]; cbn [run_op].
  - rewrite Hl, (display_run l r w Hr). cbn.
    split; [done |]. exists (clamped r).
    split; [by apply list_lookup_insert_eq | by apply same_result_clamped].
  - destruct (export_run format_type l r w Hl Hr) as (res & events & ->).
    cbn. split; [done |]. exists (clamped r).
    split; [by apply list_lookup_insert_eq | by apply same_result_clamped].
Qed.

Lemma run_ops_preserve (l : nat) (r0 : App.AnalysisResult)
    (ops : list later_op) (w : App.World) :
  (App.consistency_score r0 <= 100)%Q →
  App.last_analysis w = Some l →
  (∃ r, App.heap w !! l = Some r ∧ same_result r0 r) →
  App.last_analysis (run_ops pr ops w) = Some l
  ∧ ∃ r, App.heap (run_ops pr ops w) !! l = Some r ∧ same_result r0 r.
Proof.
  intros Hle. revert w.
  induction ops as [| op ops IH]; intros w Hl Hr; [done |].
  destruct (run_op_preserves l r0 w op Hle Hl Hr) as [Hl' Hr'].
  exact (IH _ Hl' Hr').
Qed.

(** The four plots change nothing, whether they succeed or not. *)
Lemma visualise_run (claims : list Claim) (vr : ValidationResult)
    (rr : RedFlagResult) (consistency : Q) (w : App.World) :
  ∃ figs, App.visualise pr claims vr rr consistency w = (Ok figs, w).
Proof.
  unfold App.visualise. step.
  repeat match goal with
    | |- context [match ?o with Ok _ => _ | Raise _ => _ end] =>
        destruct o; step
    end; by eexists.
Qed.

(** A complete analysis, step by step: the four stages are called in
    order, the detector with the validator's own consistency score; then
    the result is built, stored in a new dictionary whose address goes to
    the session slot, and displayed. *)
Lemma analysis_run (st : Stages) (path seniority strictness : string)
    (deep : bool) (doc : ParsedDocument) (cr : ClaimsResult) (text : string)
    (vr : ValidationResult) (rr : RedFlagResult) (w : App.World) :
  App.initialized w = true →
  completes st path seniority strictness deep doc cr text vr rr →
  ∃ out,
    App.analyze_resume st pr (Some path) seniority strictness deep w =
    (Ok out,
     {| App.initialized := true;
        App.last_analysis := Some (length (App.heap w));
        App.heap :=
          App.heap w ++ [clamped (constructed pr doc cr vr rr seniority)];
        App.log :=
          App.log w
          ++ stage_calls path seniority strictness deep doc cr text vr |})
    ∧ App.out_main out =
      App.display_template pr
        (clamped (constructed pr doc cr vr rr seniority)).
Proof.
  intros Hinit (Hparse & Hextract & Hclaims & Htext & Hvalidate & Hdetect).
  unfold App.analyze_resume, App.analysis. step.
  rewrite Hinit. step. rewrite Hparse. step. rewrite Hextract. step.
  destruct (cr_claims cr) as [| c cs] eqn:Hcs; [done |].
  step. rewrite Htext. step.
  rewrite <- Hcs in Hvalidate |- *. rewrite Hvalidate. step.
  fold (bundle_of cr vr). rewrite Hdetect. step.
  fold (constructed pr doc cr vr rr seniority).
  set (r0 := constructed pr doc cr vr rr seniority).
  match goal with
  | |- context [App.visualise pr ?a ?b ?c ?d ?w0] =>
      destruct (visualise_run a b c d w0) as ([[[f1 f2] f3] f4] & ->)
  end.
  step.
  match goal with
  | |- context [App.generate_comprehensive_analysis_display pr ?l ?w0] =>
      rewrite (display_run l r0 w0)
        by (cbn; by apply list_lookup_middle)
  end.
  step. rewrite insert_app_r_alt by done.
  rewrite Nat.sub_diag. cbn [list_insert insert].
  rewrite (list_lookup_middle _ [] _ _ eq_refl).
  eexists. split.
  - unfold stage_calls. rewrite <- !app_assoc, Hinit. reflexivity.
  - reflexivity.
Qed.

(** The consistency score of the dictionary [analyze_resume] builds. *)
Lemma constructed_consistency (doc : ParsedDocument) (cr : ClaimsResult)
    (vr : ValidationResult) (rr : RedFlagResult) (seniority : string) :
  App.consistency_score (constructed pr doc cr vr rr seniority) =
  Py.round1 (App.normalize_score (vr_consistency_score vr)).
Proof. reflexivity. Qed.

(** C1, as the code has it: [normalize_score] is applied once, to the
    validator's consistency score, after the validator and the detector
    have been called and before the result is stored; the detector itself
    is called with the validator's raw score, and the stored [final_score]
    is the detector's, rounded.  The later [min(100, ...)] of the display
    and of an export leave the stored score, which is at most 100, the same
    number. *)
Theorem consistency_normalized_after_detection (st : Stages)
    (path seniority strictness : string) (deep : bool)
    (doc : ParsedDocument) (cr : ClaimsResult) (text : string)
    (vr : ValidationResult) (rr : RedFlagResult) (w : App.World)
    (format_type : string) :
  App.initialized w = true →
  completes st path seniority strictness deep doc cr text vr rr →
  let raw := vr_consistency_score vr in
  let l := length (App.heap w) in
  let w1 :=
    (App.analyze_resume st pr (Some path) seniority strictness deep w).2 in
  let w2 := (App.export_report pr format_type w1).2 in
  App.log w1 =
    App.log w
    ++ [EvParse path;
        EvExtract doc (Py.lower seniority);
        EvValidate (cr_claims cr) text deep deep;
        EvDetect (Py.lower strictness)
          {| b_claims := cr_claims cr;
             b_validations := vr_validations vr;
             b_consistency_score := raw |}
          (Py.lower seniority)]
  ∧ App.last_analysis w1 = Some l
  ∧ (∃ r1,
       App.heap w1 !! l = Some r1
       ∧ (App.consistency_score r1 == Py.round1 (App.normalize_score raw))%Q
       ∧ App.final_score r1 = Py.round1 (rf_final_score rr))
  ∧ (∃ r2,
       App.heap w2 !! l = Some r2
       ∧ (App.consistency_score r2 == Py.round1 (App.normalize_score raw))%Q
       ∧ App.final_score r2 = Py.round1 (rf_final_score rr)).
Proof.
  intros Hinit Hrun raw l w1 w2.
  destruct (analysis_run st path seniority strictness deep doc cr text vr rr
              w Hinit Hrun) as (out & Heq & _).
  set (r0 := constructed pr doc cr vr rr seniority) in *.
  assert (Hle : (App.consistency_score r0 <= 100)%Q)
    by apply stored_consistency_le_100.
  assert (H1 : (App.consistency_score (clamped r0)
                == Py.round1 (App.normalize_score raw))%Q).
  { cbn. by apply min_100_clamp. }
  assert (Hw1 : App.heap w1 !! l = Some (clamped r0)).
  { subst w1. rewrite Heq. cbn. by apply list_lookup_middle. }
  assert (Hl1 : App.last_analysis w1 = Some l).
  { subst w1. by rewrite Heq. }
  split; [subst w1; by rewrite Heq |].
  split; [exact Hl1 |].
  split; [exists (clamped r0); by repeat split |].
  destruct (export_run format_type l (clamped r0) w1 Hl1 Hw1)
    as (res & events & Hexp).
  exists (clamped (clamped r0)). subst w2. rewrite Hexp. cbn.
  split; [apply list_lookup_insert_eq; by eapply lookup_lt_Some |].
  split; [| reflexivity].
  rewrite <- H1. apply min_100_clamp.
  rewrite H1. apply stored_consistency_le_100.
Qed.

(** C6: once [analyze_resume] has built the result and stored it as the
    session's last analysis, the session keeps pointing at it and it keeps
    the value of every field, whatever displays and exports follow. *)
Theorem stored_result_unchanged (st : Stages)
    (path seniority strictness : string) (deep : bool)
    (doc : ParsedDocument) (cr : ClaimsResult) (text : string)
    (vr : ValidationResult) (rr : RedFlagResult) (w : App.World)
    (ops : list later_op) :
  App.initialized w = true →
  completes st path seniority strictness deep doc cr text vr rr →
  let stored := constructed pr doc cr vr rr seniority in
  let l := length (App.heap w) in
  let w1 :=
    (App.analyze_resume st pr (Some path) seniority strictness deep w).2 in
  let w2 := run_ops pr ops w1 in
  App.last_analysis w1 = Some l
  ∧ App.last_analysis w2 = Some l
  ∧ ∃ r, App.heap w2 !! l = Some r ∧ same_result stored r.
Proof.
  intros Hinit Hrun stored l w1 w2.
  destruct (analysis_run st path seniority strictness deep doc cr text vr rr
              w Hinit Hrun) as (out & Heq & _).
  fold stored in Heq.
  assert (Hle : (App.consistency_score stored <= 100)%Q)
    by apply stored_consistency_le_100.
  assert (Hl1 : App.last_analysis w1 = Some l).
  { subst w1. by rewrite Heq. }
  assert (Hw1 : ∃ r, App.heap w1 !! l = Some r ∧ same_result stored r).
  { exists (clamped stored). subst w1. rewrite Heq. cbn.
    split; [by apply list_lookup_middle |].
    apply same_result_clamped; [exact Hle | apply same_result_refl]. }
  split; [exact Hl1 |].
  exact (run_ops_preserve l stored ops w1 Hle Hl1 Hw1).
Qed.

End Session.

(** C1 as stated fails on a document whose validator reports the
    consistency score 0.5: the detector, which computes the final score, is
    called with 0.5, not with the normalised 50. *)
Lemma detector_receives_raw_score :
  let st := Fixtures.stages Fixtures.document Fixtures.sample_claims 0.5%Q in
  let w1 :=
    (App.analyze_resume st Fixtures.presentation (Some "cv.pdf")
       "Mid" "Medium" false Fixtures.ready).2 in
  ∃ bundle,
    last (App.log w1) = Some (Model.EvDetect "medium" bundle "mid")
    ∧ Model.b_consistency_score bundle = 0.5%Q
    ∧ (App.normalize_score 0.5 == 50)%Q
    ∧ ¬ (Model.b_consistency_score bundle == App.normalize_score 0.5)%Q.
Proof.
  eexists. split; [vm_compute; reflexivity |].
  split; [reflexivity |].
  split; vm_compute; [reflexivity | discriminate].
Qed.

(** The sample run used below: the sample document, its two claims, and
    the raw consistency score 0.88. *)
Lemma sample_run_completes :
  Runs.completes
    (Fixtures.stages Fixtures.document Fixtures.sample_claims 0.88%Q)
    "cv.pdf" "Mid" "Medium" false Fixtures.document
    {| Model.cr_claims := Fixtures.sample_claims;
       Model.cr_metrics := Fixtures.sample_metrics |}
    "Experience: Led a team of 5 engineers at Example Corp from 2019 to 2023. Skills: Python. Education: BSc, Example Univ."
    {| Model.vr_validations := Fixtures.sample_validations;
       Model.vr_consistency_score := 0.88%Q |}
    Fixtures.sample_flags.
Proof. repeat split. discriminate. Qed.

(** The sample run, then a JSON export: the raw score 0.88 is stored as
    88. *)
Lemma consistency_normalized_after_detection_witness :
  App.initialized Fixtures.ready = true
  ∧ ∃ r,
      App.heap
        (App.export_report Fixtures.presentation "JSON"
           (App.analyze_resume
              (Fixtures.stages Fixtures.document Fixtures.sample_claims
                 0.88%Q)
              Fixtures.presentation (Some "cv.pdf") "Mid" "Medium" false
              Fixtures.ready).2).2 !! 0 = Some r
      ∧ (App.consistency_score r == 88)%Q.
Proof.
  split; [reflexivity |].
  destruct (consistency_normalized_after_detection Fixtures.presentation
              _ _ _ _ _ _ _ _ _ _ Fixtures.ready "JSON" eq_refl
              sample_run_completes)
    as (_ & _ & _ & r2 & Hr2 & Hc & _).
  exists r2. split; [exact Hr2 |].
  rewrite Hc. vm_compute. reflexivity.
Defined.

(** The sample run followed by a JSON export, a display and an HTML
    export: the stored result still has the fields it was built with. *)
Lemma stored_result_unchanged_witness :
  App.initialized Fixtures.ready = true
  ∧ ∃ r,
      App.heap
        (Runs.run_ops Fixtures.presentation
           [Runs.OpExport "JSON"; Runs.OpDisplay; Runs.OpExport "HTML"]
           (App.analyze_resume
              (Fixtures.stages Fixtures.document Fixtures.sample_claims
                 0.88%Q)
              Fixtures.presentation (Some "cv.pdf") "Mid" "Medium" false
              Fixtures.ready).2) !! 0 = Some r
      ∧ Invariants.same_result
          (Runs.constructed Fixtures.presentation Fixtures.document
             {| Model.cr_claims := Fixtures.sample_claims;
                Model.cr_metrics := Fixtures.sample_metrics |}
             {| Model.vr_validations := Fixtures.sample_validations;
                Model.vr_consistency_score := 0.88%Q |}
             Fixtures.sample_flags "Mid")
          r.
Proof.
  split; [reflexivity |].
  exact (proj2 (proj2
    (stored_result_unchanged Fixtures.presentation
       _ _ _ _ _ _ _ _ _ _ Fixtures.ready
       [Runs.OpExport "JSON"; Runs.OpDisplay; Runs.OpExport "HTML"]
       eq_refl sample_run_completes))).
Defined.

(* ===================================================================== *)
(** ** The request boundary of the Flask endpoint *)
(* ===================================================================== *)

Section Boundary.
Import Model.
Context (st : Stages) (env : Api.Env).

(** Unfolds the monadic operations of [src/api.py]. *)
Ltac api_step :=
  unfold Api.save_temporarily, Api.call, Api.record_event,
    Api.get_gemini_client, Api.getitem_raw_text,
    Exn.bind, Exn.ret, Exn.lift, Exn.gets, Exn.modify, Exn.raise,
    Exn.try_except, Exn.try_finally;
  cbn [fst snd Api.gemini_client Api.log negb].

(** C8: a request whose seniority or strictness, as the endpoint reads
    them (default applied, lower-cased), is not one of the accepted values
    is answered with an error of status 400, and nothing is done: no file
    is saved and no pipeline stage is called. *)
Theorem invalid_parameters_rejected (req : Api.Request) (w : Api.World) :
  Api.seniority req ∉ Api.valid_seniority
  ∨ Api.strictness req ∉ Api.valid_strictness →
  ∃ msg,
    Api.analyze_resume st env req w = (Ok (Api.JError msg, 400%Z), w)
    ∧ Api.is_error (Api.JError msg, 400%Z) = true
    ∧ filter (λ e, is_stage_call e = true)
        (Api.log (Api.analyze_resume st env req w).2)
      = filter (λ e, is_stage_call e = true) (Api.log w).
Proof.
  intros Hbad.
  assert (H : ∃ msg,
    Api.analyze_resume st env req w = (Ok (Api.JError msg, 400%Z), w)).
  { unfold Api.analyze_resume. api_step.
    destruct (Api.files req !! "file") as [file |]; [| by eexists].
    destruct (String.eqb (Api.filename file) ""); [by eexists |].
    destruct (decide (Api.seniority req ∈ Api.valid_seniority)) as [Hs | Hs].
    - rewrite (bool_decide_eq_true_2 _ Hs). cbn [negb].
      destruct (decide (Api.strictness req ∈ Api.valid_strictness))
        as [Ht | Ht].
      + by destruct Hbad.
      + rewrite (bool_decide_eq_false_2 _ Ht). by eexists.
    - rewrite (bool_decide_eq_false_2 _ Hs). by eexists. }
  destruct H as (msg & Heq). exists msg.
  split; [exact Heq |]. split; [reflexivity |]. by rewrite Heq.
Qed.

(** The endpoint's answer to an empty claim list: a fixed message,
    whatever the parsed document is. *)
Lemma api_no_claims (req : Api.Request) (file : Api.FileUpload)
    (path : string) (doc : ParsedDocument) (cr : ClaimsResult)
    (w : Api.World) :
  Api.files req !! "file" = Some file →
  Api.filename file ≠ "" →
  Api.seniority req ∈ Api.valid_seniority →
  Api.strictness req ∈ Api.valid_strictness →
  ApiRuns.upload_stored env file path →
  Api.gemini_client w = true →
  parse st path = Ok doc →
  extract_claims st doc (Api.seniority req) = Ok cr →
  cr_claims cr = [] →
  (Api.analyze_resume st env req w).1 =
  Ok (Api.JNoClaims "No claims found in resume"
        "Ensure resume includes work experience, projects, or skills",
      400%Z).
Proof.
  intros Hfile Hname Hs Ht (Hcreate & Hsave & Hclose) Hclient Hparse
    Hextract Hclaims.
  unfold Api.analyze_resume, Api.pipeline. api_step.
  rewrite Hfile.
  apply String.eqb_neq in Hname. rewrite Hname.
  rewrite (bool_decide_eq_true_2 _ Hs), (bool_decide_eq_true_2 _ Ht).
  api_step. rewrite Hcreate. api_step. rewrite Hsave. api_step.
  rewrite Hclose. api_step. rewrite Hclient. api_step.
  rewrite Hparse. api_step. rewrite Hextract. api_step.
  rewrite Hclaims. reflexivity.
Qed.

End Boundary.

(** A request for the seniority "Principal" is turned away with status 400
    and the process state is untouched. *)
Lemma invalid_parameters_rejected_witness :
  let req := Fixtures.request [("seniority", "Principal")] in
  let st := Fixtures.stages Fixtures.document Fixtures.sample_claims 0.88%Q in
  (Api.seniority req ∉ Api.valid_seniority)
  ∧ ∃ msg,
      Api.analyze_resume st Fixtures.env req Fixtures.fresh
      = (Ok (Api.JError msg, 400%Z), Fixtures.fresh).
Proof.
  intros req st.
  assert (Hbad : Api.seniority req ∉ Api.valid_seniority).
  { apply (bool_decide_unpack _). vm_compute. reflexivity. }
  split; [exact Hbad |].
  destruct (invalid_parameters_rejected st Fixtures.env req Fixtures.fresh
              (or_introl Hbad)) as (msg & Heq & _).
  exists msg. exact Heq.
Defined.

(* ===================================================================== *)
(** ** An empty claim list *)
(* ===================================================================== *)

Section NoClaims.
Import Model.
Context (st : Stages) (pr : App.Presentation).

(** The Gradio front end on a short text: the message says so. *)
Lemma diagnose_too_short (doc : ParsedDocument) :
  String.length (Py.get (raw_text doc) "") < 100 →
  App.diagnose_no_claims doc =
  "⚠️ Resume too short (< 100 words). Please upload a complete resume with work experience, projects, or skills."
  ∧ Py.contains "too short" (App.diagnose_no_claims doc) = true.
Proof.
  intros Hlen. unfold App.diagnose_no_claims.
  apply Nat.ltb_lt in Hlen. rewrite Hlen. split; [reflexivity |].
  vm_compute. reflexivity.
Qed.

(** The Gradio front end on an empty claim list: no exception, the two
    stage calls made so far, and the diagnosis of the parsed document as
    the message. *)
Lemma app_no_claims (path seniority strictness : string) (deep : bool)
    (doc : ParsedDocument) (cr : ClaimsResult) (w : App.World) :
  App.initialized w = true →
  parse st path = Ok doc →
  extract_claims st doc (Py.lower seniority) = Ok cr →
  cr_claims cr = [] →
  App.analyze_resume st pr (Some path) seniority strictness deep w =
  (Ok (App.failure (App.diagnose_no_claims doc)),
   {| App.initialized := true;
      App.last_analysis := App.last_analysis w;
      App.heap := App.heap w;
      App.log :=
        App.log w ++ [EvParse path; EvExtract doc (Py.lower seniority)] |}).
Proof.
  intros Hinit Hparse Hextract Hclaims.
  unfold App.analyze_resume, App.analysis,
    App.call, App.record_event, Exn.bind, Exn.ret, Exn.lift, Exn.gets,
    Exn.modify, Exn.try_except.
  cbn [fst snd App.initialized App.last_analysis App.heap App.log negb].
  rewrite Hinit. cbn [negb]. rewrite Hparse.
  cbn [fst snd App.initialized App.last_analysis App.heap App.log].
  rewrite Hextract, Hclaims, Hinit, <- app_assoc. reflexivity.
Qed.

End NoClaims.

(** C7 at a parsed document with 50 characters of text and no claim: the
    Gradio front end answers that the resume is too short; the Flask
    endpoint answers with its fixed message, which does not mention it. *)
Theorem api_zero_claims_message_is_generic :
  let st := Fixtures.stages Fixtures.short_document [] 0.88%Q in
  String.length (Py.get (Model.raw_text Fixtures.short_document) "") = 50
  ∧ App.out_main
      (match (App.analyze_resume st Fixtures.presentation (Some "cv.pdf")
                "mid" "medium" false Fixtures.ready).1 with
       | Ok out => out
       | Raise e => App.failure e
       end)
    = "⚠️ Resume too short (< 100 words). Please upload a complete resume with work experience, projects, or skills."
  ∧ (Api.analyze_resume st Fixtures.env (Fixtures.request []) Fixtures.fresh).1
    = Ok (Api.JNoClaims "No claims found in resume"
            "Ensure resume includes work experience, projects, or skills",
          400%Z)
  ∧ Py.contains "too short" "No claims found in resume" = false
  ∧ Py.contains "too short"
      "Ensure resume includes work experience, projects, or skills" = false.
Proof. repeat split; vm_compute; reflexivity. Qed.

(* ===================================================================== *)
(** ** More on score normalisation *)
(* ===================================================================== *)

Section ScoreLaws.
Local Open Scope Q_scope.

(** Same comparison cases as in the first part. *)
Ltac cases :=
  unfold Py.min, Py.gt, Py.lt, Py.le, Qdiv;
  change (/ 100) with (1 # 100);
  repeat match goal with
    | |- context [Qle_bool ?a ?b] =>
        let E := fresh "E" in
        destruct (Qle_bool a b) eqn:E;
        [apply Qle_bool_iff in E | apply Qle_bool_false in E];
        cbn [negb]
    end.

Lemma round_half_even_ge (x : Q) (n : Z) :
  inject_Z n <= x → (n <= Py.round_half_even x)%Z.
Proof.
  intros H. unfold Py.round_half_even.
  assert (Hf : (n <= Qfloor x)%Z).
  { rewrite <- (Qfloor_Z n). by apply Qfloor_resp_le. }
  destruct (Qcompare _ _); [destruct (Z.even _) | |]; lia.
Qed.

Lemma round1_nonneg (x : Q) : 0 <= x → 0 <= Py.round1 x.
Proof.
  intros H. unfold Py.round1.
  assert (Hz : (0 <= Py.round_half_even (x * 10))%Z).
  { apply round_half_even_ge. change (inject_Z 0) with 0. lra. }
  apply Qle_shift_div_l; [reflexivity |].
  change (0 * 10) with (inject_Z 0). by rewrite <- Zle_Qle.
Qed.

(** A non-negative raw score is normalised into the range [0,100], and so
    is the rounded value that is stored or sent.  (A negative raw score is
    multiplied by 100 and stays negative.) *)
Theorem normalize_score_range (s : Q) :
  0 <= s →
  (0 <= Api.normalize_score s ∧ Api.normalize_score s <= 100)
  ∧ (0 <= App.normalize_score s ∧ App.normalize_score s <= 100)
  ∧ (0 <= Py.round1 (App.normalize_score s)
     ∧ Py.round1 (App.normalize_score s) <= 100).
Proof.
  intros H.
  assert (Ha : 0 <= App.normalize_score s ∧ App.normalize_score s <= 100).
  { unfold App.normalize_score. cases; split; lra. }
  split; [unfold Api.normalize_score; cases; split; lra |].
  split; [exact Ha |].
  split; [apply round1_nonneg | apply round1_le_100]; tauto.
Qed.

(** The over-scaled 250 is in range after normalisation. *)
Lemma normalize_score_range_witness :
  0 <= 250
  ∧ 0 <= App.normalize_score 250 ∧ App.normalize_score 250 <= 100.
Proof.
  assert (H : 0 <= 250) by (vm_compute; discriminate).
  destruct (normalize_score_range 250 H) as (_ & [Hlo Hhi] & _).
  exact (conj H (conj Hlo Hhi)).
Defined.

(** A score above 100 is taken to be multiplied by 100 once too often: up
    to 10000 it is divided by 100, which brings it to at most 100 and
    strictly below its own value; from 10000 on it is clamped to 100. *)
Theorem normalize_score_above_100 (s : Q) :
  100 < s →
  (s <= 10000 →
   App.normalize_score s == s / 100 ∧ App.normalize_score s < s)
  ∧ (10000 <= s → App.normalize_score s == 100)
  ∧ Api.normalize_score s == App.normalize_score s.
Proof.
  intros H. unfold Api.normalize_score, App.normalize_score.
  repeat split; intros; cases; try lra; try reflexivity.
Qed.

(** 150 becomes 1.5. *)
Lemma normalize_score_above_100_witness :
  100 < 150 ∧ App.normalize_score 150 == 1.5.
Proof.
  assert (H : 100 < 150) by reflexivity.
  assert (H' : 150 <= 10000) by (vm_compute; discriminate).
  destruct (normalize_score_above_100 150 H) as (Hdiv & _ & _).
  destruct (Hdiv H') as [Heq _].
  split; [exact H |]. rewrite Heq. reflexivity.
Defined.

(** The fixed points of the rule, over all scores. *)
Lemma normalize_score_fixed (t : Q) :
  App.normalize_score t == t ↔ t == 0 ∨ (1 < t ∧ t <= 100).
Proof.
  unfold App.normalize_score.
  cases;
    (split;
     [ intros Hx; destruct (Qlt_le_dec 0 t);
       first [lra | left; lra | right; lra]
     | intros [Hx | Hx]; lra ]).
Qed.

(** The raw scores whose normalisation is a fixed point. *)
Lemma normalize_score_image (s : Q) :
  App.normalize_score s == 0
  ∨ (1 < App.normalize_score s ∧ App.normalize_score s <= 100)
  ↔ s == 0 ∨ 0.01 < s.
Proof.
  unfold App.normalize_score.
  cases;
    (split;
     [ intros [Hx | Hx]; destruct (Qlt_le_dec 0 s);
       first [lra | left; lra | right; lra]
     | intros [Hx | Hx]; first [lra | left; lra | right; lra] ]).
Qed.

(** Applying the rule a second time changes the value exactly when the
    raw score is negative or lies in (0, 0.01]: its first normalisation is
    then at most 1 and is multiplied by 100 again. *)
Theorem normalize_score_twice (s : Q) :
  App.normalize_score (App.normalize_score s) == App.normalize_score s
  ↔ s == 0 ∨ 0.01 < s.
Proof.
  exact (iff_trans (normalize_score_fixed (App.normalize_score s))
                   (normalize_score_image s)).
Qed.

End ScoreLaws.

(* ===================================================================== *)
(** ** Behaviour of [POST /api/analyze] *)
(* ===================================================================== *)

Section ApiBehaviour.
Import Model ApiRuns.
Context (st : Stages) (env : Api.Env).

Ltac api_unfold :=
  unfold Api.analyze_resume, Api.save_temporarily, Api.pipeline, Api.call,
    Api.record_event, Api.get_gemini_client, Api.getitem_raw_text,
    analysis_failed,
    Exn.bind, Exn.ret, Exn.lift, Exn.gets, Exn.modify, Exn.raise,
    Exn.try_except, Exn.try_finally;
  cbn [fst snd Api.gemini_client Api.log negb].

(** Splits on every test and every outcome that the goal still
    inspects. *)
Ltac api_cases :=
  repeat (cbn [fst snd Api.gemini_client Api.log negb];
          match goal with
          | |- context [match ?x with _ => _ end] =>
              lazymatch x with
              | context [match _ with _ => _ end] => fail
              | _ => destruct x eqn:?
              end
          end).

(** The endpoint never lets an exception out, and its answer has one of
    three shapes: the results with status 200, an error with status 400,
    or "Analysis failed" with status 500. *)
Theorem api_analyze_never_raises (req : Api.Request) (w : Api.World) :
  ∃ resp w',
    Api.analyze_resume st env req w = (Ok resp, w')
    ∧ well_formed resp = true.
Proof.
  api_unfold. api_cases; eexists _, _; (split; [reflexivity |]);
    reflexivity.
Qed.

(** A request without a file, or whose file has an empty name, is turned
    away with status 400 before its parameters are read; nothing is
    done. *)
Theorem api_upload_required (req : Api.Request) (w : Api.World) :
  (∀ file, Api.files req !! "file" = Some file → Api.filename file = "") →
  ∃ msg,
    (msg = "No file uploaded" ∨ msg = "Empty filename")
    ∧ Api.analyze_resume st env req w = (Ok (Api.JError msg, 400%Z), w).
Proof.
  intros Hfile. api_unfold.
  destruct (Api.files req !! "file") as [file |].
  - rewrite (Hfile file eq_refl). cbn. eexists. by split; [right |].
  - eexists. by split; [left |].
Qed.

(** An accepted request whose upload is stored in [path], up to the inner
    [try]. *)
Lemma api_accepted_run (req : Api.Request) (file : Api.FileUpload)
    (path : string) (w : Api.World) :
  accepted req file →
  upload_stored env file path →
  Api.analyze_resume st env req w =
  Exn.try_except
    (Exn.try_finally
       (Api.pipeline st env req file path)
       (Api.record_event (EvUnlink path)))
    (λ e, Exn.ret
            (Api.JFailed "Analysis failed" e
               (if Api.debug env then Some (Api.format_exc env e) else None),
             500%Z))
    {| Api.gemini_client := Api.gemini_client w;
       Api.log :=
         Api.log w
         ++ [EvCreateTemp path; EvSaveUpload (Api.filename file) path] |}.
Proof.
  intros (Hfile & Hname & Hs & Ht) (Hcreate & Hsave & Hclose).
  unfold Api.analyze_resume, Api.save_temporarily, Api.call,
    Api.record_event, Exn.try_except, Exn.bind, Exn.ret, Exn.lift,
    Exn.modify.
  rewrite Hfile. apply String.eqb_neq in Hname. rewrite Hname.
  rewrite (bool_decide_eq_true_2 _ Hs), (bool_decide_eq_true_2 _ Ht).
  cbn [negb]. rewrite Hcreate. cbn [fst snd Api.gemini_client Api.log].
  rewrite Hsave, Hclose. by rewrite <- app_assoc.
Qed.

(** An accepted request, up to the storing of its upload. *)
Lemma api_accepted_start (req : Api.Request) (file : Api.FileUpload)
    (w : Api.World) :
  accepted req file →
  Api.analyze_resume st env req w =
  Exn.try_except
    (do path <- Api.save_temporarily env file;
     Exn.try_finally
       (Api.pipeline st env req file path)
       (Api.record_event (EvUnlink path)))
    (λ e, Exn.ret (analysis_failed env e))
    w.
Proof.
  intros (Hfile & Hname & Hs & Ht).
  unfold Api.analyze_resume, Exn.try_except.
  rewrite Hfile. apply String.eqb_neq in Hname. rewrite Hname.
  by rewrite (bool_decide_eq_true_2 _ Hs), (bool_decide_eq_true_2 _ Ht).
Qed.

(** The temporary file of an accepted request.  When it cannot be created
    the request fails with status 500 and nothing is done.  When it is
    created but the upload cannot be saved into it, or it cannot be
    closed, the request fails with status 500, no stage is called, and
    the file is not removed.  Once the upload is stored the file is
    removed at the end, whatever happens in between: the events of the
    run are the creation, the saving, then calls of pipeline stages only,
    then the removal. *)
Theorem api_temporary_file_lifecycle (req : Api.Request)
    (file : Api.FileUpload) (w : Api.World) :
  accepted req file →
  let result := Api.analyze_resume st env req w in
  let events := new_events w result.2 in
  Api.log result.2 = Api.log w ++ events
  ∧ match Api.NamedTemporaryFile env (Api.filename file) with
    | Raise e => result = (Ok (analysis_failed env e), w)
    | Ok path =>
        match Api.save file path, Api.close env path with
        | Ok _, Ok _ =>
            events =
            EvCreateTemp path :: EvSaveUpload (Api.filename file) path
            :: List.filter is_stage_call events ++ [EvUnlink path]
        | Raise e, _ | Ok _, Raise e =>
            result.1 = Ok (analysis_failed env e)
            ∧ events =
              [EvCreateTemp path; EvSaveUpload (Api.filename file) path]
        end
    end.
Proof.
  intros Hacc. cbn zeta. unfold new_events.
  destruct (Api.NamedTemporaryFile env (Api.filename file))
    as [path | e] eqn:Hcreate.
  - destruct (Api.save file path) as [[] | e] eqn:Hsave;
      [destruct (Api.close env path) as [[] | e] eqn:Hclose |].
    + rewrite (api_accepted_run req file path w Hacc) by done.
      api_unfold. api_cases;
        cbn [fst snd Api.gemini_client Api.log];
        rewrite <- ?app_assoc; rewrite drop_app_length;
        (split; reflexivity).
    + rewrite (api_accepted_start req file w Hacc).
      api_unfold. rewrite Hcreate. cbn [fst snd Api.gemini_client Api.log].
      rewrite Hsave, Hclose. cbn [fst snd Api.gemini_client Api.log].
      rewrite <- ?app_assoc. rewrite drop_app_length. by repeat split.
    + rewrite (api_accepted_start req file w Hacc).
      api_unfold. rewrite Hcreate. cbn [fst snd Api.gemini_client Api.log].
      rewrite Hsave. cbn [fst snd Api.gemini_client Api.log].
      rewrite <- ?app_assoc. rewrite drop_app_length. by repeat split.
  - rewrite (api_accepted_start req file w Hacc).
    api_unfold. rewrite Hcreate. cbn [fst snd Api.gemini_client Api.log].
    split; [| done].
    by rewrite drop_ge, app_nil_r.
Qed.

(** Without a client and without an API key the analysis fails with
    status 500 before any stage is called; the upload, once stored, is
    removed. *)
Theorem api_missing_key (req : Api.Request) (file : Api.FileUpload)
    (path : string) (w : Api.World) :
  accepted req file →
  upload_stored env file path →
  Api.gemini_client w = false →
  Api.GEMINI_API_KEY env = "" →
  Api.analyze_resume st env req w =
  (Ok (Api.JFailed "Analysis failed"
         "GEMINI_API_KEY environment variable not set"
         (if Api.debug env
          then Some (Api.format_exc env
                       "GEMINI_API_KEY environment variable not set")
          else None),
       500%Z),
   {| Api.gemini_client := false;
      Api.log :=
        Api.log w
        ++ [EvCreateTemp path; EvSaveUpload (Api.filename file) path;
            EvUnlink path] |}).
Proof.
  intros Hacc Hstored Hclient Hkey.
  rewrite (api_accepted_run req file path w Hacc Hstored).
  api_unfold. rewrite Hclient, Hkey. cbn.
  by rewrite <- app_assoc.
Qed.

(** The state in which the pipeline starts: the upload saved and the
    client there. *)
Lemma api_client_ready (w : Api.World) (events : list Event) :
  client_available env w →
  Api.get_gemini_client env
    {| Api.gemini_client := Api.gemini_client w;
       Api.log := Api.log w ++ events |} =
  (Ok tt, {| Api.gemini_client := true; Api.log := Api.log w ++ events |}).
Proof.
  intros [Hc | Hk]; unfold Api.get_gemini_client, Exn.bind, Exn.gets,
    Exn.ret, Exn.raise, Exn.modify; cbn.
  - by rewrite Hc.
  - destruct (Api.gemini_client w); [done |].
    apply String.eqb_neq in Hk. unfold Py.truthy. by rewrite Hk.
Qed.

(** A failure of the validator is fatal: the answer is "Analysis failed"
    with the validator's message and status 500, the detector is not
    called, and the stored upload is removed. *)
Theorem api_validator_failure (req : Api.Request) (file : Api.FileUpload)
    (path : string) (doc : ParsedDocument) (cr : ClaimsResult)
    (text e : string) (w : Api.World) :
  accepted req file →
  upload_stored env file path →
  client_available env w →
  parse st path = Ok doc →
  extract_claims st doc (Api.seniority req) = Ok cr →
  cr_claims cr ≠ [] →
  raw_text doc = Some text →
  validate_evidence st (cr_claims cr) text
    (Api.deep_analysis req) (Api.deep_analysis req) = Raise e →
  Api.analyze_resume st env req w =
  (Ok (Api.JFailed "Analysis failed" e
         (if Api.debug env then Some (Api.format_exc env e) else None),
       500%Z),
   {| Api.gemini_client := true;
      Api.log :=
        Api.log w
        ++ [EvCreateTemp path;
            EvSaveUpload (Api.filename file) path;
            EvParse path;
            EvExtract doc (Api.seniority req);
            EvValidate (cr_claims cr) text
              (Api.deep_analysis req) (Api.deep_analysis req);
            EvUnlink path] |}).
Proof.
  intros Hacc Hstored Hclient Hparse Hextract Hclaims Htext Hvalidate.
  rewrite (api_accepted_run req file path w Hacc Hstored).
  unfold Exn.try_except, Exn.try_finally, Api.pipeline.
  unfold Exn.bind at 1. rewrite (api_client_ready w _ Hclient).
  unfold Api.call, Api.record_event, Api.getitem_raw_text,
    Exn.bind, Exn.ret, Exn.lift, Exn.modify, Exn.raise.
  cbn [fst snd Api.gemini_client Api.log].
  rewrite Hparse, Hextract.
  destruct (cr_claims cr) as [| c cs] eqn:Hcs; [done |].
  rewrite Htext. cbn [fst snd Api.gemini_client Api.log].
  rewrite Hvalidate. cbn [fst snd Api.gemini_client Api.log].
  by rewrite <- !app_assoc.
Qed.

(** A complete run: the upload is stored, the stages are called in order,
    the detector with the validator's own consistency score, the results
    are sent with status 200, and the upload is removed. *)
Theorem api_complete_run (req : Api.Request) (file : Api.FileUpload)
    (path : string) (doc : ParsedDocument) (cr : ClaimsResult)
    (text : string) (vr : ValidationResult) (rr : RedFlagResult)
    (w : Api.World) :
  accepted req file →
  upload_stored env file path →
  client_available env w →
  completes st req path doc cr text vr rr →
  Api.analyze_resume st env req w =
  (Ok (Api.JResults
         (Api.compile_results env req file cr vr rr
            (Py.round1 (rf_final_score rr))
            (Py.round1 (rf_credibility_score rr))
            (Py.round1 (Api.normalize_score (vr_consistency_score vr)))),
       200%Z),
   {| Api.gemini_client := true;
      Api.log :=
        Api.log w
        ++ [EvCreateTemp path;
            EvSaveUpload (Api.filename file) path;
            EvParse path;
            EvExtract doc (Api.seniority req);
            EvValidate (cr_claims cr) text
              (Api.deep_analysis req) (Api.deep_analysis req);
            EvDetect (Api.strictness req) (Runs.bundle_of cr vr)
              (Api.seniority req);
            EvUnlink path] |}).
Proof.
  intros Hacc Hstored Hclient
    (Hparse & Hextract & Hclaims & Htext & Hvalidate & Hdetect).
  rewrite (api_accepted_run req file path w Hacc Hstored).
  unfold Exn.try_except, Exn.try_finally, Api.pipeline.
  unfold Exn.bind at 1. rewrite (api_client_ready w _ Hclient).
  unfold Api.call, Api.record_event, Api.getitem_raw_text,
    Exn.bind, Exn.ret, Exn.lift, Exn.modify, Exn.raise.
  cbn [fst snd Api.gemini_client Api.log].
  rewrite Hparse, Hextract.
  destruct (cr_claims cr) as [| c cs] eqn:Hcs; [done |].
  rewrite Htext. cbn [fst snd Api.gemini_client Api.log].
  rewrite <- Hcs in Hvalidate |- *. rewrite Hvalidate.
  cbn [fst snd Api.gemini_client Api.log].
  fold (Runs.bundle_of cr vr). rewrite Hdetect.
  cbn [fst snd Api.gemini_client Api.log].
  by rewrite <- !app_assoc.
Qed.

End ApiBehaviour.

(* ===================================================================== *)
(** ** Behaviour of the Gradio [analyze_resume] and [export_report] *)
(* ===================================================================== *)

Section AppBehaviour.
Import Model Runs.
Context (st : Stages) (pr : App.Presentation).

Ltac app_unfold :=
  unfold App.analyze_resume, App.analysis, App.call, App.record_event,
    App.getitem_raw_text, Exn.bind, Exn.ret, Exn.lift, Exn.gets,
    Exn.modify, Exn.raise, Exn.try_except;
  cbn [fst snd App.initialized App.last_analysis App.heap App.log negb].


(** Closes a case in which the run ends without storing anything. *)
Ltac unchanged :=
  eexists _, _; (split; [reflexivity |]); (split; [done |]);
  (split; [by left | done]).

(** [analyze_resume] never raises, never changes the initialisation flag,
    and either leaves the cache as it was (no dictionary added, the slot
    untouched) or adds exactly one dictionary, with a consistency score of
    at most 100, and points the slot at it.  In both cases the
    dictionaries of earlier analyses stay as they are. *)
Theorem app_analysis_atomic (file : option string)
    (seniority strictness : string) (deep : bool) (w : App.World) :
  ∃ out w',
    App.analyze_resume st pr file seniority strictness deep w = (Ok out, w')
    ∧ App.initialized w' = App.initialized w
    ∧ ((App.heap w' = App.heap w
        ∧ App.last_analysis w' = App.last_analysis w)
       ∨ (∃ r,
            App.heap w' = App.heap w ++ [r]
            ∧ App.last_analysis w' = Some (length (App.heap w))
            ∧ (App.consistency_score r <= 100)%Q))
    ∧ ∀ l r, App.heap w !! l = Some r → App.heap w' !! l = Some r.
Proof.
  destruct (App.initialized w) eqn:Hinit;
    [| app_unfold; rewrite Hinit; unchanged].
  destruct file as [path |];
    [| app_unfold; rewrite Hinit; unchanged].
  destruct (parse st path) as [doc | e] eqn:Hparse;
    [| app_unfold; rewrite Hinit, Hparse; unchanged].
  destruct (extract_claims st doc (Py.lower seniority)) as [cr | e]
    eqn:Hextract;
    [| app_unfold; rewrite Hinit, Hparse; cbn; rewrite Hextract;
       unchanged].
  destruct (cr_claims cr) as [| c cs] eqn:Hcs;
    [app_unfold; rewrite Hinit, Hparse; cbn; rewrite Hextract, Hcs;
     unchanged |].
  destruct (raw_text doc) as [text |] eqn:Htext;
    [| app_unfold; rewrite Hinit, Hparse; cbn; rewrite Hextract, Hcs, Htext;
       unchanged].
  destruct (validate_evidence st (cr_claims cr) text deep deep)
    as [vr | e] eqn:Hvalidate;
    [| app_unfold; rewrite Hinit, Hparse; cbn; rewrite Hextract, Hcs, Htext;
       cbn; rewrite <- Hcs, Hvalidate;
       unchanged].
  destruct (detect_red_flags st (Py.lower strictness) (bundle_of cr vr)
              (Py.lower seniority)) as [rr | e] eqn:Hdetect.
  - assert (Hrun : completes st path seniority strictness deep doc cr text
                     vr rr).
    { repeat split; try done. by rewrite Hcs. }
    destruct (analysis_run pr st path seniority strictness deep doc cr text
                vr rr w Hinit Hrun) as (out & -> & _).
    eexists _, _. split; [reflexivity |]. cbn.
    split; [done |]. split.
    + right. eexists. repeat split.
      cbn. rewrite min_100_clamp by apply stored_consistency_le_100.
      apply stored_consistency_le_100.
    + intros l r Hl. by apply lookup_app_l_Some.
  - app_unfold. rewrite Hinit, Hparse. cbn. rewrite Hextract, Hcs, Htext.
    cbn. rewrite <- Hcs, Hvalidate. cbn.
    unfold bundle_of in Hdetect. rewrite Hdetect.
    unchanged.
Qed.

(** The four plots come together or not at all: if one of them raises,
    the other three are dropped as well, and the failure goes no further
    and changes nothing. *)
Theorem visualise_all_or_nothing (claims : list Claim)
    (vr : ValidationResult) (rr : RedFlagResult) (consistency : Q)
    (w : App.World) :
  App.visualise pr claims vr rr consistency w =
  (Ok (ViewSpec.figures pr claims vr rr consistency), w).
Proof.
  unfold App.visualise, ViewSpec.figures, Exn.try_except, Exn.bind,
    Exn.lift, Exn.ret.
  destruct (App.create_evidence_heatmap pr _ _); [| reflexivity].
  destruct (App.create_credibility_dashboard pr _ _); [| reflexivity].
  destruct (App.create_claim_distribution pr _); [| reflexivity].
  destruct (App.create_validation_summary pr _ _); reflexivity.
Qed.


End AppBehaviour.

(* ===================================================================== *)
(** ** More on the pairing of claims and validation records *)
(* ===================================================================== *)

Section PairingLaws.
Import Model ViewSpec.

(** Whatever the records are, an entry of [validation_map] is one of
    them, filed under its own non-empty [claim_id]. *)
Lemma build_validation_map_sound (validations : list ValidationRecord)
    (k : string) (v : ValidationRecord) :
  App.build_validation_map validations !! k = Some v →
  k ≠ "" ∧ v ∈ validations ∧ val_claim_id v = Some k.
Proof.
  induction validations as [| x l IH] using rev_ind.
  - change (App.build_validation_map []) with
      (∅ : gmap string ValidationRecord).
    by rewrite lookup_empty.
  - rewrite build_validation_map_snoc. cbn zeta.
    rewrite elem_of_app, list_elem_of_singleton.
    destruct (Py.truthy (Py.get (val_claim_id x) "")) eqn:Ht;
      [| intros H; destruct (IH H) as (? & ? & ?); by eauto].
    apply truthy_true in Ht.
    destruct (val_claim_id x) as [kx |] eqn:Hx; [| done].
    cbn in Ht |- *. rewrite lookup_insert.
    destruct (decide (kx = k)) as [-> | Hne].
    + intros [= <-]. by eauto.
    + intros H. destruct (IH H) as (? & ? & ?). by eauto.
Qed.

(** A claim without [claim_id], with an empty one, or with one that no
    record carries is paired with the empty record. *)
Theorem lookup_validation_miss (validations : list ValidationRecord)
    (claim : Claim) :
  lookup_key claim = ""
  ∨ (∀ v, v ∈ validations → val_claim_id v ≠ Some (lookup_key claim)) →
  App.lookup_validation (App.build_validation_map validations) claim
  = empty_validation.
Proof.
  intros Hmiss. unfold App.lookup_validation. fold (lookup_key claim).
  destruct (App.build_validation_map validations !! lookup_key claim)
    as [v |] eqn:Hv; [| reflexivity].
  apply build_validation_map_sound in Hv as (Hne & Hin & Hid).
  destruct Hmiss as [He | Hnone]; [done |].
  by destruct (Hnone v Hin).
Qed.

(** When several records carry the same [claim_id], the last one in the
    list is the one kept. *)
Theorem build_validation_map_last_wins (before after : list ValidationRecord)
    (v : ValidationRecord) (k : string) :
  val_claim_id v = Some k → k ≠ "" →
  (∀ v', v' ∈ after → val_claim_id v' ≠ Some k) →
  App.build_validation_map (before ++ v :: after) !! k = Some v.
Proof.
  intros Hv Hk.
  induction after as [| x l IH] using rev_ind; intros Hafter.
  - rewrite build_validation_map_snoc. cbn zeta. rewrite Hv. cbn.
    apply truthy_true in Hk. rewrite Hk. apply lookup_insert_eq.
  - replace (before ++ v :: l ++ [x]) with ((before ++ v :: l) ++ [x])
      by by rewrite <- app_assoc.
    rewrite build_validation_map_snoc. cbn zeta.
    assert (IH' : App.build_validation_map (before ++ v :: l) !! k = Some v).
    { apply IH. intros v' Hin. apply Hafter, elem_of_app. by left. }
    destruct (Py.truthy (Py.get (val_claim_id x) "")) eqn:Ht; [| done].
    rewrite lookup_insert_ne; [done |].
    intros Heq.
    apply (Hafter x); [apply elem_of_app; right; by left |].
    destruct (val_claim_id x) as [kx |]; cbn in Heq, Ht.
    + by subst.
    + done.
Qed.

(** [categories_append] adds the item and nothing else. *)
Lemma categories_append_concat {A} (cat : string) (item : A)
    (categories : list (string * list A)) :
  concat ((App.categories_append cat item categories).*2)
  ≡ₚ item :: concat (categories.*2).
Proof.
  induction categories as [| [k items] rest IH]; cbn; [done |].
  destruct (String.eqb k cat); cbn.
  - rewrite <- app_assoc. cbn. by rewrite <- Permutation_middle.
  - rewrite IH. by rewrite <- Permutation_middle.
Qed.

Lemma categories_append_keys {A} (cat : string) (item : A)
    (categories : list (string * list A)) (k : string) :
  k ∈ (App.categories_append cat item categories).*1 →
  k = cat ∨ k ∈ categories.*1.
Proof.
  induction categories as [| [k0 items] rest IH]; cbn.
  - intros H. apply list_elem_of_singleton in H. by left.
  - destruct (String.eqb k0 cat); cbn; [by right |].
    intros [-> | H]%elem_of_cons; [right; by left |].
    destruct (IH H) as [-> | ?]; [by left | right; by right].
Qed.

(** A category appears once in the dictionary. *)
Lemma categories_append_NoDup {A} (cat : string) (item : A)
    (categories : list (string * list A)) :
  NoDup (categories.*1) → NoDup ((App.categories_append cat item categories).*1).
Proof.
  induction categories as [| [k0 items] rest IH]; cbn.
  - intros _. apply NoDup_singleton.
  - intros [Hnot Hnd]%NoDup_cons.
    destruct (String.eqb k0 cat) eqn:E; cbn.
    + by apply NoDup_cons.
    + apply NoDup_cons. split; [| by apply IH].
      intros Hin. apply categories_append_keys in Hin as [-> | Hin];
        [| done].
      by rewrite String.eqb_refl in E.
Qed.

(** Where an item of the extended dictionary comes from. *)
Lemma categories_append_inv_key {A} (cat : string) (item : A)
    (categories : list (string * list A)) (k : string) (items : list A)
    (x : A) :
  (k, items) ∈ App.categories_append cat item categories → x ∈ items →
  (x = item ∧ k = cat) ∨ ∃ items', (k, items') ∈ categories ∧ x ∈ items'.
Proof.
  induction categories as [| [k0 items0] rest IH]; cbn; intros Hin Hx.
  - apply list_elem_of_singleton in Hin as [= -> ->].
    apply list_elem_of_singleton in Hx. by left.
  - destruct (String.eqb k0 cat) eqn:E.
    + apply String.eqb_eq in E as ->.
      apply elem_of_cons in Hin as [[= -> ->] | Hin].
      * apply elem_of_app in Hx as [Hx | Hx].
        -- right. exists items0. split; [by left | done].
        -- apply list_elem_of_singleton in Hx. by left.
      * right. exists items. split; [by right | done].
    + apply elem_of_cons in Hin as [[= -> ->] | Hin].
      * right. exists items0. split; [by left | done].
      * destruct (IH Hin Hx) as [[-> ->] | (items' & Hin' & Hx')];
          [by left |].
        right. exists items'. split; [by right | done].
Qed.

(** The grouping loop over any list of claims. *)
Lemma group_loop_partition (m : gmap string ValidationRecord)
    (l : list Claim) :
  let categories :=
    foldl (λ categories claim,
             App.categories_append (Py.get (category claim) "other")
               (claim, App.lookup_validation m claim) categories)
          [] l in
  concat (categories.*2) ≡ₚ paired m <$> l
  ∧ NoDup (categories.*1)
  ∧ ∀ cat items c v,
      (cat, items) ∈ categories → (c, v) ∈ items →
      Py.get (category c) "other" = cat.
Proof.
  induction l as [| c l IH] using rev_ind; cbn zeta.
  - cbn. split; [done |]. split; [apply NoDup_nil_2 |].
    intros cat items c v Hin. by apply elem_of_nil in Hin.
  - rewrite group_claims_snoc. destruct IH as (Hperm & Hnd & Hcat).
    split; [| split].
    + rewrite categories_append_concat, Hperm, fmap_app. cbn.
      by rewrite <- Permutation_cons_append.
    + by apply categories_append_NoDup.
    + intros cat items c' v Hin Hx.
      destruct (categories_append_inv_key _ _ _ _ _ _ Hin Hx)
        as [[[= -> ->] ->] | (items' & Hin' & Hx')]; [done |].
      by eapply Hcat.
Qed.

(** The grouping shows each of the first twenty claims exactly once, and
    no other claim: the items of all categories together are those twenty
    claims with their records, each category appears once, and every
    claim is filed under its own category ("other" when it has none). *)
Theorem group_claims_partition (m : gmap string ValidationRecord)
    (claims : list Claim) :
  concat ((App.group_claims m claims).*2) ≡ₚ paired m <$> take 20 claims
  ∧ length (concat ((App.group_claims m claims).*2))
    = Nat.min 20 (length claims)
  ∧ NoDup ((App.group_claims m claims).*1)
  ∧ ∀ cat items c v,
      (cat, items) ∈ App.group_claims m claims → (c, v) ∈ items →
      Py.get (category c) "other" = cat.
Proof.
  destruct (group_loop_partition m (take 20 claims)) as (Hperm & Hnd & Hcat).
  unfold App.group_claims.
  split; [exact Hperm |]. split; [| by split].
  by rewrite Hperm, length_fmap, length_take.
Qed.

End PairingLaws.

(* ===================================================================== *)
(** ** Status lines and renderers *)
(* ===================================================================== *)

Section Views.
Import Model ViewSpec.

(** The three evidence counts of the display add up to the number of
    validation records when every record says direct, contextual or none;
    a record without [evidence_present] is in none of the three counts. *)
Theorem evidence_counts_partition (results : App.AnalysisResult) :
  Forall (λ v, evidence_present v ∈
               [Some "direct"; Some "contextual"; Some "none"])
         (App.validations results) →
  AppViews.count_evidence_type results "direct"
  + AppViews.count_evidence_type results "contextual"
  + AppViews.count_evidence_type results "none"
  = length (App.validations results).
Proof.
  unfold AppViews.count_evidence_type, Py.count.
  induction 1 as [| v l Hv _ IH]; [reflexivity |].
  cbn [List.filter].
  repeat (apply elem_of_cons in Hv as [Hv | Hv]);
    [| | | by apply elem_of_nil in Hv];
    rewrite Hv; cbn in *; lia.
Qed.

(** The check of the score breakdown and the status line of the overview
    agree: the timeline check passes exactly when the timeline status is
    the consistent one, and likewise for the technology timeline. *)
Theorem check_status_agrees (results : App.AnalysisResult) :
  (AppViews.get_check_status results "timeline" = "✅ Passed"
   ↔ AppViews.get_timeline_status results
     = "✅ Consistent - No gaps or overlaps")
  ∧ (AppViews.get_check_status results "tech_timeline" = "✅ Passed"
     ↔ AppViews.get_tech_timeline_status results
       = "✅ Valid - All technologies used after release").
Proof.
  unfold AppViews.get_check_status, AppViews.get_timeline_status,
    AppViews.get_tech_timeline_status.
  change (String.eqb "timeline" "timeline") with true.
  change (String.eqb "tech_timeline" "timeline") with false.
  change (String.eqb "tech_timeline" "tech_timeline") with true.
  cbv iota.
  split.
  - destruct (List.filter _ (App.red_flags results)); [done |].
    split; intros H; cbn in H; discriminate.
  - destruct (List.filter _ (App.red_flags results)); [done |].
    split; intros H; cbn in H; discriminate.
Qed.

(** Every check other than the two timeline checks has a fixed result,
    the same for all analyses. *)
Theorem check_status_constant (results results' : App.AnalysisResult)
    (check_type : string) :
  check_type ≠ "timeline" → check_type ≠ "tech_timeline" →
  AppViews.get_check_status results check_type
  = AppViews.get_check_status results' check_type.
Proof.
  intros H1 H2. unfold AppViews.get_check_status.
  apply String.eqb_neq in H1, H2. by rewrite H1, H2.
Qed.

(** Filtering twice by a stronger test is filtering once. *)
Lemma filter_filter_implies {A} (p q : A → bool) (l : list A) :
  (∀ x, p x = true → q x = true) →
  List.filter p (List.filter q l) = List.filter p l.
Proof.
  intros Hpq. induction l as [| x l IH]; [reflexivity |].
  cbn. destruct (q x) eqn:Hq; cbn.
  - by rewrite IH.
  - destruct (p x) eqn:Hp; [| exact IH].
    apply Hpq in Hp. congruence.
Qed.

(** Red flags of low severity, or without one of the three rendered
    severities, never reach the red-flag analysis: it is the analysis of
    the remaining flags, and the empty text when none remains (not the
    banner that an empty list gets). *)
Theorem red_flag_analysis_ignores_low (t : AppViews.FlagTemplates)
    (red_flags : list RedFlag) :
  red_flags ≠ [] →
  AppViews.generate_detailed_red_flag_analysis t red_flags =
  match List.filter rendered_severity red_flags with
  | [] => ""
  | known => AppViews.generate_detailed_red_flag_analysis t known
  end.
Proof.
  intros Hne. destruct red_flags as [| f fs]; [done |].
  set (flags := f :: fs) in *.
  assert (Hc : List.filter (λ f, Py.eq_str (severity f) "critical")
                 (List.filter rendered_severity flags)
               = List.filter (λ f, Py.eq_str (severity f) "critical") flags).
  { apply filter_filter_implies. intros x Hx. unfold rendered_severity.
    by rewrite Hx. }
  assert (Hh : List.filter (λ f, Py.eq_str (severity f) "high")
                 (List.filter rendered_severity flags)
               = List.filter (λ f, Py.eq_str (severity f) "high") flags).
  { apply filter_filter_implies. intros x Hx. unfold rendered_severity.
    rewrite Hx. by rewrite orb_true_r. }
  assert (Hm : List.filter (λ f, Py.eq_str (severity f) "medium")
                 (List.filter rendered_severity flags)
               = List.filter (λ f, Py.eq_str (severity f) "medium") flags).
  { apply filter_filter_implies. intros x Hx. unfold rendered_severity.
    rewrite Hx. by rewrite orb_true_r. }
  destruct (List.filter rendered_severity flags) as [| k ks] eqn:Hk.
  - subst flags.
    cbv beta iota zeta delta [AppViews.generate_detailed_red_flag_analysis].
    by rewrite <- Hc, <- Hh, <- Hm.
  - subst flags.
    cbv beta iota zeta delta [AppViews.generate_detailed_red_flag_analysis].
    by rewrite Hc, Hh, Hm.
Qed.

(** A claim whose [claim_id] is missing, empty, or carried by no record is
    rendered as unverified, with the evidence score 0. *)
Theorem unmatched_claim_unverified (template : AppViews.ClaimView → string)
    (validations : list ValidationRecord) (claim : Claim) :
  lookup_key claim = ""
  ∨ (∀ v, v ∈ validations → val_claim_id v ≠ Some (lookup_key claim)) →
  let shown :=
    AppViews.generate_single_claim_analysis template claim
      (App.lookup_validation (App.build_validation_map validations) claim) in
  ∃ view,
    shown = template view
    ∧ AppViews.cv_status_text view = "UNVERIFIED"
    ∧ AppViews.cv_icon view = "❌"
    ∧ AppViews.cv_score view = 0%Q
    ∧ AppViews.cv_display_text view
      = AppViews.display_text (Py.get (claim_text claim) "Unknown claim").
Proof.
  intros Hmiss.
  assert (Hempty :
    App.lookup_validation (App.build_validation_map validations) claim
    = empty_validation).
  { unfold App.lookup_validation. fold (lookup_key claim).
    destruct (App.build_validation_map validations !! lookup_key claim)
      as [v |] eqn:Hv; [| reflexivity].
    apply build_validation_map_sound in Hv as (Hne & Hin & Hid).
    destruct Hmiss as [He | Hnone]; [done |].
    by destruct (Hnone v Hin). }
  cbn zeta. rewrite Hempty.
  eexists. split; [reflexivity |]. by cbn.
Qed.

Lemma string_length_app (a b : string) :
  String.length (a +:+ b) = String.length a + String.length b.
Proof. induction a as [| c a IH]; simpl; [done | by f_equal]. Qed.

Lemma string_length_substring (n : nat) (s : string) :
  String.length (String.substring 0 n s) = Nat.min n (String.length s).
Proof.
  revert n. induction s as [| c s IH]; intros [| n]; cbn; try done.
  by rewrite IH.
Qed.

(** The title of a claim is its text when that has at most 100
    characters, and otherwise its first 100 characters followed by three
    dots: never more than 103 characters. *)
Theorem display_text_bounded (text : string) :
  String.length (AppViews.display_text text) ≤ 103
  ∧ (String.length text ≤ 100 → AppViews.display_text text = text)
  ∧ (100 < String.length text →
     AppViews.display_text text = String.substring 0 100 text +:+ "..."
     ∧ String.length (AppViews.display_text text) = 103).
Proof.
  unfold AppViews.display_text.
  destruct (100 <? String.length text) eqn:E.
  - apply Nat.ltb_lt in E.
    rewrite string_length_app, string_length_substring. cbn [String.length].
    repeat split; lia.
  - apply Nat.ltb_ge in E. repeat split; lia.
Qed.

End Views.

(* ===================================================================== *)
(** ** Initialisation of the Gradio session *)
(* ===================================================================== *)

Section SessionInit.
Import Model ViewSpec.
Context {Client : Type} (g : AppSession.Gemini Client).

Lemma lstrip_blank (key : string) : blank key → AppSession.lstrip key = "".
Proof.
  unfold blank. induction key as [| c key IH]; cbn; [done |].
  intros [Hc Hrest]%Forall_cons. rewrite Hc. by apply IH.
Qed.

(** A key that is empty or made of white space is refused, whatever the
    service would answer, and the session is left as it is. *)
Theorem initialize_session_blank_key (key : string) (mock_mode : bool)
    (s : AppSession.Session Client) :
  blank key →
  AppSession.initialize_session g key mock_mode s
  = ((false, "❌ Please enter a valid API key"), s).
Proof.
  intros Hblank. unfold AppSession.initialize_session, AppSession.strip.
  rewrite (lstrip_blank key Hblank). cbn.
  by rewrite orb_true_r.
Qed.

(** An initialisation that fails leaves the session as it was.  One that
    succeeds sets the flag, keeps the client that was built from the
    stripped key and answered the test, stores the key as it was typed,
    and touches neither the cached analysis nor the log. *)
Theorem initialize_session_outcome (key : string) (mock_mode : bool)
    (s : AppSession.Session Client) :
  let ok := (AppSession.initialize_session g key mock_mode s).1.1 in
  let s' := (AppSession.initialize_session g key mock_mode s).2 in
  (ok = false → s' = s)
  ∧ (ok = true →
     App.initialized (AppSession.world s') = true
     ∧ AppSession.api_key s' = Some key
     ∧ (∃ client,
          AppSession.gemini_client s' = Some client
          ∧ AppSession.connect g (AppSession.strip key) = Ok client)
     ∧ App.last_analysis (AppSession.world s')
       = App.last_analysis (AppSession.world s)
     ∧ App.heap (AppSession.world s') = App.heap (AppSession.world s)
     ∧ App.log (AppSession.world s') = App.log (AppSession.world s)).
Proof.
  cbn zeta. unfold AppSession.initialize_session.
  destruct (negb (Py.truthy key) || String.eqb (AppSession.strip key) "");
    [by split |].
  destruct (AppSession.connect g (AppSession.strip key)) as [client | e]
    eqn:Hc; [| by split].
  destruct (AppSession.generate_content g client _) as [[text |] | e];
    [| by split | by split].
  destruct (Py.truthy text); [| by split].
  split; [done |]. intros _. cbn. repeat split; try done. by exists client.
Qed.

(** Every initialised analysis of a file starts by calling the parser. *)
Lemma analysis_starts_with_parse (st : Stages) (pr : App.Presentation)
    (path seniority strictness : string) (deep : bool) (w : App.World) :
  App.initialized w = true →
  ∃ rest,
    App.log (App.analyze_resume st pr (Some path) seniority strictness deep
               w).2
    = App.log w ++ EvParse path :: rest.
Proof.
  intros Hinit.
  destruct (parse st path) as [doc | e] eqn:Hparse.
  2: { unfold App.analyze_resume, App.analysis, App.call, App.record_event,
         Exn.bind, Exn.ret, Exn.lift, Exn.gets, Exn.modify, Exn.try_except.
       cbn. rewrite Hinit. cbn. rewrite Hparse. by eexists. }
  destruct (extract_claims st doc (Py.lower seniority)) as [cr | e]
    eqn:Hextract.
  2: { unfold App.analyze_resume, App.analysis, App.call, App.record_event,
         Exn.bind, Exn.ret, Exn.lift, Exn.gets, Exn.modify, Exn.try_except.
       cbn. rewrite Hinit. cbn. rewrite Hparse. cbn. rewrite Hextract.
       cbn. rewrite <- app_assoc. by eexists. }
  destruct (cr_claims cr) as [| c cs] eqn:Hcs.
  { unfold App.analyze_resume, App.analysis, App.call, App.record_event,
      Exn.bind, Exn.ret, Exn.lift, Exn.gets, Exn.modify, Exn.try_except.
    cbn. rewrite Hinit. cbn. rewrite Hparse. cbn. rewrite Hextract, Hcs.
    cbn. rewrite <- app_assoc. by eexists. }
  destruct (raw_text doc) as [text |] eqn:Htext.
  2: { unfold App.analyze_resume, App.analysis, App.call, App.record_event,
         App.getitem_raw_text,
         Exn.bind, Exn.ret, Exn.lift, Exn.gets, Exn.modify, Exn.raise,
         Exn.try_except.
       cbn. rewrite Hinit. cbn. rewrite Hparse. cbn.
       rewrite Hextract, Hcs, Htext.
       cbn. rewrite <- app_assoc. by eexists. }
  destruct (validate_evidence st (cr_claims cr) text deep deep)
    as [vr | e] eqn:Hvalidate.
  2: { unfold App.analyze_resume, App.analysis, App.call, App.record_event,
         App.getitem_raw_text,
         Exn.bind, Exn.ret, Exn.lift, Exn.gets, Exn.modify, Exn.raise,
         Exn.try_except.
       cbn. rewrite Hinit. cbn. rewrite Hparse. cbn.
       rewrite Hextract, Hcs, Htext. cbn. rewrite <- Hcs, Hvalidate.
       cbn. rewrite <- !app_assoc. by eexists. }
  destruct (detect_red_flags st (Py.lower strictness)
              (Runs.bundle_of cr vr) (Py.lower seniority))
    as [rr | e] eqn:Hdetect.
  - assert (Hrun : Runs.completes st path seniority strictness deep doc cr
                     text vr rr).
    { repeat split; try done. by rewrite Hcs. }
    destruct (analysis_run pr st path seniority strictness deep doc cr text
                vr rr w Hinit Hrun) as (out & -> & _).
    cbn. by eexists.
  - unfold App.analyze_resume, App.analysis, App.call, App.record_event,
      App.getitem_raw_text,
      Exn.bind, Exn.ret, Exn.lift, Exn.gets, Exn.modify, Exn.raise,
      Exn.try_except.
    cbn. rewrite Hinit. cbn. rewrite Hparse. cbn.
    rewrite Hextract, Hcs, Htext. cbn. rewrite <- Hcs, Hvalidate. cbn.
    unfold Runs.bundle_of in Hdetect. rewrite Hdetect.
    cbn. rewrite <- !app_assoc. by eexists.
Qed.

(** After a successful initialisation the flag is set and the log is the
    old one. *)
Lemma initialize_session_outcome_aux (key : string) (mock_mode : bool)
    (s : AppSession.Session Client) :
  (AppSession.initialize_session g key mock_mode s).1.1 = true →
  App.initialized
    (AppSession.world (AppSession.initialize_session g key mock_mode s).2)
  = true
  ∧ App.log
      (AppSession.world (AppSession.initialize_session g key mock_mode s).2)
    = App.log (AppSession.world s).
Proof.
  unfold AppSession.initialize_session.
  destruct (negb (Py.truthy key) || String.eqb (AppSession.strip key) "");
    [done |].
  destruct (AppSession.connect g (AppSession.strip key)) as [client | e];
    [| done].
  destruct (AppSession.generate_content g client _) as [[text |] | e];
    [| done | done].
  by destruct (Py.truthy text).
Qed.

(** The analysis is gated by the initialisation: in a session that is not
    initialised it answers with the request to initialise and calls
    nothing; once [initialize_session] has succeeded, the same call goes
    on to the parser. *)
Theorem analysis_gated_by_initialization (st : Stages)
    (pr : App.Presentation) (key path seniority strictness : string)
    (mock_mode deep : bool) (s : AppSession.Session Client) :
  App.initialized (AppSession.world s) = false →
  (AppSession.initialize_session g key mock_mode s).1.1 = true →
  let s' := (AppSession.initialize_session g key mock_mode s).2 in
  App.analyze_resume st pr (Some path) seniority strictness deep
    (AppSession.world s)
  = (Ok (App.failure "❌ Please initialize session with API key first"),
     AppSession.world s)
  ∧ ∃ rest,
      App.log (App.analyze_resume st pr (Some path) seniority strictness
                 deep (AppSession.world s')).2
      = App.log (AppSession.world s) ++ EvParse path :: rest.
Proof.
  intros Hoff Hok. cbn zeta. split.
  - unfold App.analyze_resume, Exn.bind, Exn.gets, Exn.ret.
    by rewrite Hoff.
  - destruct (initialize_session_outcome_aux key mock_mode s Hok)
      as (Hon & Hlog).
    destruct (analysis_starts_with_parse st pr path seniority strictness
                deep _ Hon) as (rest & ->).
    exists rest. by rewrite Hlog.
Qed.

End SessionInit.

(* ===================================================================== *)
(** ** Behaviour of [POST /api/export] *)
(* ===================================================================== *)

Section ApiExportLaws.
Import Model ViewSpec.
Context (rd : ApiExport.Renderers).

(** A format other than html, json or csv (in any case) is refused with
    status 400 before the body is looked at: the answer is the same for
    every body, also one that cannot be read, and nothing is written. *)
Theorem api_export_invalid_format (args : gmap string string)
    (body : outcome ApiExport.json) (w : Api.World) :
  export_format args ∉ ["html"; "json"; "csv"] →
  ApiExport.export_report rd args body w
  = (Ok (ApiExport.SentError "Invalid format. Must be: html, json, or csv"
           400%Z),
     w).
Proof.
  intros Hbad.
  unfold ApiExport.export_report, Exn.try_except, Exn.ret.
  fold (export_format args).
  by rewrite (bool_decide_eq_false_2 _ Hbad).
Qed.

(** The last statements of each format, by the outcome of the three
    calls on the temporary file. *)
Lemma send_export_run (suffix mimetype content : string) (w : Api.World) :
  ApiExport.send_export rd suffix mimetype content w =
  match ApiExport.NamedTemporaryFile rd suffix with
  | Raise e => (Raise e, w)
  | Ok path =>
      let w' :=
        {| Api.gemini_client := Api.gemini_client w;
           Api.log :=
             Api.log w ++ [EvCreateTemp path; EvWriteFile path content] |} in
      match ApiExport.write rd path content, ApiExport.close rd path with
      | Ok _, Ok _ =>
          (Ok (ApiExport.SentFile path
                 ("resume_analysis_" +:+ ApiExport.timestamp rd +:+ suffix)
                 mimetype), w')
      | Raise e, _ | Ok _, Raise e => (Raise e, w')
      end
  end.
Proof.
  unfold ApiExport.send_export, Api.call, Api.record_event,
    Exn.bind, Exn.ret, Exn.lift, Exn.modify.
  destruct (ApiExport.NamedTemporaryFile rd suffix) as [path | e]; [| done].
  cbn [fst snd Api.gemini_client Api.log]. rewrite <- app_assoc.
  destruct (ApiExport.write rd path content) as [[] | e]; [| done].
  by destruct (ApiExport.close rd path) as [[] | e].
Qed.

(** The export up to the last statements of its format: the content is
    generated first. *)
Lemma export_report_run (args : gmap string string)
    (results : ApiExport.json) (w : Api.World) :
  export_format args ∈ ["html"; "json"; "csv"] →
  ApiExport.truthy results = true →
  ApiExport.export_report rd args (Ok results) w =
  Exn.try_except
    (do content <-
       Exn.lift (export_content rd (export_format args) results);
     ApiExport.send_export rd ("." +:+ export_format args)
       (mimetype_of (export_format args)) content)
    (λ e, Exn.ret (ApiExport.SentFailed "Export failed" e 500%Z))
    w.
Proof.
  intros Hfmt Htruthy.
  unfold ApiExport.export_report, Exn.try_except, Exn.bind, Exn.lift.
  fold (export_format args).
  rewrite (bool_decide_eq_true_2 _ Hfmt), Htruthy.
  cbn [negb fst snd].
  unfold export_content, mimetype_of.
  repeat (apply elem_of_cons in Hfmt as [Hfmt | Hfmt]);
    [| | | by apply elem_of_nil in Hfmt];
    rewrite Hfmt; cbn [String.eqb Ascii.eqb Bool.eqb]; reflexivity.
Qed.

(** With a valid format and a non-empty body whose report can be
    generated and written, exactly one file is created, with the report
    as content, and sent under a name and a MIME type that match the
    format; the file is not removed afterwards. *)
Theorem api_export_sends_file (args : gmap string string)
    (results : ApiExport.json) (content path : string) (w : Api.World) :
  export_format args ∈ ["html"; "json"; "csv"] →
  ApiExport.truthy results = true →
  export_content rd (export_format args) results = Ok content →
  let suffix := "." +:+ export_format args in
  export_written rd suffix content path →
  ApiExport.export_report rd args (Ok results) w
  = (Ok (ApiExport.SentFile path
           ("resume_analysis_" +:+ ApiExport.timestamp rd +:+ suffix)
           (mimetype_of (export_format args))),
     {| Api.gemini_client := Api.gemini_client w;
        Api.log :=
          Api.log w ++ [EvCreateTemp path; EvWriteFile path content] |}).
Proof.
  intros Hfmt Htruthy Hcontent suffix (Hcreate & Hwrite & Hclose).
  rewrite (export_report_run args results w Hfmt Htruthy).
  unfold Exn.try_except, Exn.bind, Exn.lift. rewrite Hcontent.
  rewrite send_export_run. fold suffix.
  rewrite Hcreate. cbn zeta. by rewrite Hwrite, Hclose.
Qed.

(** When the report is generated and its temporary file created, but the
    content cannot be written (or the file cannot be closed), no file is
    sent: the answer is "Export failed" with the error and status 500, and
    the temporary file stays. *)
Theorem api_export_write_failure (args : gmap string string)
    (results : ApiExport.json) (content path e : string) (w : Api.World) :
  export_format args ∈ ["html"; "json"; "csv"] →
  ApiExport.truthy results = true →
  export_content rd (export_format args) results = Ok content →
  ApiExport.NamedTemporaryFile rd ("." +:+ export_format args) = Ok path →
  ApiExport.write rd path content = Raise e
  ∨ (ApiExport.write rd path content = Ok tt
     ∧ ApiExport.close rd path = Raise e) →
  ApiExport.export_report rd args (Ok results) w
  = (Ok (ApiExport.SentFailed "Export failed" e 500%Z),
     {| Api.gemini_client := Api.gemini_client w;
        Api.log :=
          Api.log w ++ [EvCreateTemp path; EvWriteFile path content] |}).
Proof.
  intros Hfmt Htruthy Hcontent Hcreate Hfail.
  rewrite (export_report_run args results w Hfmt Htruthy).
  unfold Exn.try_except, Exn.bind, Exn.lift. rewrite Hcontent.
  rewrite send_export_run, Hcreate. cbn zeta.
  destruct Hfail as [Hwrite | [Hwrite Hclose]].
  - by rewrite Hwrite.
  - by rewrite Hwrite, Hclose.
Qed.

(** The export never raises and never removes a file.  It sends a file
    only after creating and writing it; a refused request (status 400)
    changes nothing; a failed export (status 500) changes nothing or
    leaves behind the one temporary file it created, which is not
    sent. *)
Theorem api_export_never_raises (args : gmap string string)
    (body : outcome ApiExport.json) (w : Api.World) :
  ∃ sent w',
    ApiExport.export_report rd args body w = (Ok sent, w')
    ∧ Api.gemini_client w' = Api.gemini_client w
    ∧ match sent with
      | ApiExport.SentFile path _ _ =>
          ∃ content,
            Api.log w' =
            Api.log w ++ [EvCreateTemp path; EvWriteFile path content]
      | ApiExport.SentError _ status => status = 400%Z ∧ w' = w
      | ApiExport.SentFailed error _ status =>
          error = "Export failed" ∧ status = 500%Z
          ∧ (w' = w
             ∨ ∃ path content,
                 Api.log w' =
                 Api.log w ++ [EvCreateTemp path; EvWriteFile path content])
      end.
Proof.
  destruct (decide (export_format args ∈ ["html"; "json"; "csv"]))
    as [Hfmt | Hfmt].
  2: { unfold ApiExport.export_report, Exn.try_except, Exn.ret.
       fold (export_format args).
       rewrite (bool_decide_eq_false_2 _ Hfmt). by eexists _, _. }
  destruct body as [results | e].
  2: { unfold ApiExport.export_report, Exn.try_except, Exn.ret, Exn.bind,
         Exn.lift.
       fold (export_format args).
       rewrite (bool_decide_eq_true_2 _ Hfmt). cbn.
       eexists _, _. split; [reflexivity |]. by eauto. }
  destruct (ApiExport.truthy results) eqn:Htruthy.
  2: { unfold ApiExport.export_report, Exn.try_except, Exn.ret, Exn.bind,
         Exn.lift.
       fold (export_format args).
       rewrite (bool_decide_eq_true_2 _ Hfmt), Htruthy. cbn.
       by eexists _, _. }
  rewrite (export_report_run args results w Hfmt Htruthy).
  unfold Exn.try_except, Exn.bind, Exn.lift, Exn.ret.
  destruct (export_content rd (export_format args) results)
    as [content | e].
  2: { eexists _, _. split; [reflexivity |]. by eauto. }
  rewrite send_export_run.
  destruct (ApiExport.NamedTemporaryFile rd _) as [path | e].
  2: { eexists _, _. split; [reflexivity |]. by eauto. }
  cbn zeta.
  destruct (ApiExport.write rd path content) as [[] | e];
    [destruct (ApiExport.close rd path) as [[] | e] |];
    eexists _, _; (split; [reflexivity |]); cbn; by eauto 8.
Qed.

End ApiExportLaws.

(* ===================================================================== *)
(** ** The laws above on the sample data *)
(* ===================================================================== *)

(** The sample request is accepted, and the sample stages answer it. *)
Lemma sample_request_accepted :
  ApiRuns.accepted (Fixtures.request []) Fixtures.upload.
Proof.
  repeat split; try discriminate;
    apply (bool_decide_unpack _); vm_compute; reflexivity.
Qed.

Lemma sample_client_available :
  ApiRuns.client_available Fixtures.env Fixtures.fresh.
Proof. right. discriminate. Qed.

Lemma sample_upload_stored :
  ApiRuns.upload_stored Fixtures.env Fixtures.upload "/tmp/upload_cv.pdf".
Proof. by repeat split. Qed.

Lemma sample_api_completes :
  ApiRuns.completes Samples.stages (Fixtures.request [])
    "/tmp/upload_cv.pdf" Fixtures.document Samples.claims_result
    Samples.sample_text Samples.validation_result Fixtures.sample_flags.
Proof. repeat split. discriminate. Qed.

(** A request without a file. *)
Lemma api_upload_required_witness :
  (∀ file,
      Api.files Samples.request_without_file !! "file" = Some file →
      Api.filename file = "")
  ∧ ∃ msg,
      Api.analyze_resume Samples.stages Fixtures.env
        Samples.request_without_file Fixtures.fresh
      = (Ok (Api.JError msg, 400%Z), Fixtures.fresh).
Proof.
  assert (H : ∀ file,
             Api.files Samples.request_without_file !! "file" = Some file →
             Api.filename file = "").
  { intros file Hf. cbn in Hf. by rewrite lookup_empty in Hf. }
  split; [exact H |].
  destruct (api_upload_required Samples.stages Fixtures.env
              Samples.request_without_file Fixtures.fresh H)
    as (msg & _ & Heq).
  exists msg. exact Heq.
Defined.

(** The sample request: its upload is removed at the end.  The same
    request with an upload that cannot be saved: the temporary file is
    created and stays. *)
Lemma api_temporary_file_lifecycle_witness :
  ApiRuns.accepted (Fixtures.request []) Fixtures.upload
  ∧ last (Api.log (Api.analyze_resume Samples.stages Fixtures.env
                     (Fixtures.request []) Fixtures.fresh).2)
    = Some (Model.EvUnlink "/tmp/upload_cv.pdf")
  ∧ ApiRuns.accepted Samples.request_unsaved Samples.upload_unsaved
  ∧ Api.log (Api.analyze_resume Samples.stages Fixtures.env
               Samples.request_unsaved Fixtures.fresh).2
    = [Model.EvCreateTemp "/tmp/upload_cv.pdf";
       Model.EvSaveUpload "cv.pdf" "/tmp/upload_cv.pdf"].
Proof.
  assert (Hacc : ApiRuns.accepted Samples.request_unsaved
                   Samples.upload_unsaved).
  { repeat split; try discriminate;
      apply (bool_decide_unpack _); vm_compute; reflexivity. }
  split; [exact sample_request_accepted |].
  split.
  - destruct (api_temporary_file_lifecycle Samples.stages Fixtures.env
                (Fixtures.request []) Fixtures.upload Fixtures.fresh
                sample_request_accepted) as [Hlog Hevents].
    cbn [Fixtures.env Fixtures.upload Api.NamedTemporaryFile Api.filename
         Api.save Api.close] in Hevents.
    rewrite Hlog, Hevents.
    rewrite !app_comm_cons, app_assoc. apply last_snoc.
  - split; [exact Hacc |].
    destruct (api_temporary_file_lifecycle Samples.stages Fixtures.env
                Samples.request_unsaved Samples.upload_unsaved
                Fixtures.fresh Hacc) as [Hlog Hevents].
    cbn [Fixtures.env Samples.upload_unsaved Api.NamedTemporaryFile
         Api.filename Api.save Api.close] in Hevents.
    rewrite Hlog. exact (proj2 Hevents).
Defined.

(** The sample request in a process without key. *)
Lemma api_missing_key_witness :
  ApiRuns.accepted (Fixtures.request []) Fixtures.upload
  ∧ ApiRuns.upload_stored Samples.env_without_key Fixtures.upload
      "/tmp/upload_cv.pdf"
  ∧ Api.gemini_client Fixtures.fresh = false
  ∧ Api.GEMINI_API_KEY Samples.env_without_key = ""
  ∧ (Api.analyze_resume Samples.stages Samples.env_without_key
       (Fixtures.request []) Fixtures.fresh).1
    = Ok (Api.JFailed "Analysis failed"
            "GEMINI_API_KEY environment variable not set" None,
          500%Z).
Proof.
  assert (Hstored : ApiRuns.upload_stored Samples.env_without_key
                      Fixtures.upload "/tmp/upload_cv.pdf")
    by by repeat split.
  split; [exact sample_request_accepted |]. split; [exact Hstored |].
  split; [reflexivity |]. split; [reflexivity |].
  by rewrite (api_missing_key Samples.stages Samples.env_without_key
                (Fixtures.request []) Fixtures.upload "/tmp/upload_cv.pdf"
                Fixtures.fresh sample_request_accepted Hstored
                eq_refl eq_refl).
Defined.

(** The sample request when the validator times out. *)
Lemma api_validator_failure_witness :
  Model.validate_evidence Samples.stages_failing_validator
    Fixtures.sample_claims Samples.sample_text false false
  = Raise "oracle timeout"
  ∧ (Api.analyze_resume Samples.stages_failing_validator Fixtures.env
       (Fixtures.request []) Fixtures.fresh).1
    = Ok (Api.JFailed "Analysis failed" "oracle timeout" None, 500%Z).
Proof.
  split; [reflexivity |].
  assert (Hne : Model.cr_claims Samples.claims_result ≠ []) by discriminate.
  by rewrite (api_validator_failure Samples.stages_failing_validator
                Fixtures.env (Fixtures.request []) Fixtures.upload
                "/tmp/upload_cv.pdf"
                Fixtures.document Samples.claims_result Samples.sample_text
                "oracle timeout" Fixtures.fresh
                sample_request_accepted sample_upload_stored
                sample_client_available
                eq_refl eq_refl Hne eq_refl eq_refl).
Defined.

(** The sample request, answered in full: the consistency score sent is
    88. *)
Lemma api_complete_run_witness :
  ApiRuns.accepted (Fixtures.request []) Fixtures.upload
  ∧ ∃ r,
      (Api.analyze_resume Samples.stages Fixtures.env (Fixtures.request [])
         Fixtures.fresh).1
      = Ok (Api.JResults r, 200%Z)
      ∧ (Api.consistency_score r == 88)%Q.
Proof.
  split; [exact sample_request_accepted |].
  rewrite (api_complete_run Samples.stages Fixtures.env (Fixtures.request [])
             Fixtures.upload "/tmp/upload_cv.pdf"
             Fixtures.document Samples.claims_result
             Samples.sample_text Samples.validation_result
             Fixtures.sample_flags Fixtures.fresh
             sample_request_accepted sample_upload_stored
             sample_client_available sample_api_completes).
  eexists. split; [reflexivity |]. vm_compute. reflexivity.
Defined.



(** Before any analysis there is nothing to export. *)
Lemma export_nothing_stored_witness :
  App.last_analysis Fixtures.ready = None
  ∧ (App.export_report Fixtures.presentation "HTML" Fixtures.ready).2
    = Fixtures.ready.
Proof.
  split; [reflexivity |].
  by rewrite (export_nothing_stored Fixtures.presentation "HTML"
                Fixtures.ready eq_refl).
Defined.

(** A claim without [claim_id] gets the empty record. *)
Lemma lookup_validation_miss_witness :
  ViewSpec.lookup_key Samples.claim_anonymous = ""
  ∧ App.lookup_validation
      (App.build_validation_map Fixtures.sample_validations)
      Samples.claim_anonymous
    = Model.empty_validation.
Proof.
  split; [reflexivity |].
  exact (lookup_validation_miss Fixtures.sample_validations
           Samples.claim_anonymous (or_introl eq_refl)).
Defined.

(** Two records for the first claim: the later one is kept. *)
Lemma build_validation_map_last_wins_witness :
  Model.val_claim_id Samples.validation_lead_late = Some "claim_1"
  ∧ App.build_validation_map
      [Fixtures.validation_lead; Samples.validation_lead_late;
       Fixtures.validation_python] !! "claim_1"
    = Some Samples.validation_lead_late.
Proof.
  split; [reflexivity |].
  apply (build_validation_map_last_wins [Fixtures.validation_lead]
           [Fixtures.validation_python] Samples.validation_lead_late
           "claim_1"); [reflexivity | discriminate |].
  intros v' Hin. apply list_elem_of_singleton in Hin as ->. discriminate.
Defined.

(** The sample result: one direct, one contextual, no record without
    evidence. *)
Lemma evidence_counts_partition_witness :
  AppViews.count_evidence_type Samples.sample_result "direct"
  + AppViews.count_evidence_type Samples.sample_result "contextual"
  + AppViews.count_evidence_type Samples.sample_result "none"
  = 2.
Proof.
  apply (evidence_counts_partition Samples.sample_result).
  repeat constructor.
Defined.

(** The coherence check does not look at the analysis. *)
Lemma check_status_constant_witness :
  "coherence" ≠ "timeline" ∧ "coherence" ≠ "tech_timeline"
  ∧ AppViews.get_check_status Samples.sample_result "coherence"
    = AppViews.get_check_status (Runs.clamped Samples.sample_result)
        "coherence".
Proof.
  assert (H1 : "coherence" ≠ "timeline") by discriminate.
  assert (H2 : "coherence" ≠ "tech_timeline") by discriminate.
  exact (conj H1 (conj H2
    (check_status_constant Samples.sample_result
       (Runs.clamped Samples.sample_result) "coherence" H1 H2))).
Defined.

(** One flag of low severity: the analysis is the empty text. *)
Lemma red_flag_analysis_ignores_low_witness :
  [Samples.flag_low] ≠ []
  ∧ AppViews.generate_detailed_red_flag_analysis Samples.flag_templates
      [Samples.flag_low]
    = "".
Proof.
  assert (H : [Samples.flag_low] ≠ []) by discriminate.
  split; [exact H |].
  by rewrite (red_flag_analysis_ignores_low Samples.flag_templates
                [Samples.flag_low] H).
Defined.

(** The claim without [claim_id] is shown as unverified. *)
Lemma unmatched_claim_unverified_witness :
  ViewSpec.lookup_key Samples.claim_anonymous = ""
  ∧ ∃ view,
      AppViews.generate_single_claim_analysis Samples.claim_template
        Samples.claim_anonymous
        (App.lookup_validation
           (App.build_validation_map Fixtures.sample_validations)
           Samples.claim_anonymous)
      = Samples.claim_template view
      ∧ AppViews.cv_status_text view = "UNVERIFIED".
Proof.
  split; [reflexivity |].
  destruct (unmatched_claim_unverified Samples.claim_template
              Fixtures.sample_validations Samples.claim_anonymous
              (or_introl eq_refl)) as (view & Heq & Hstatus & _).
  exists view. exact (conj Heq Hstatus).
Defined.

(** A key of three spaces. *)
Lemma initialize_session_blank_key_witness :
  ViewSpec.blank "   "
  ∧ AppSession.initialize_session Samples.gemini "   " false
      Samples.session_at_start
    = ((false, "❌ Please enter a valid API key"), Samples.session_at_start).
Proof.
  assert (H : ViewSpec.blank "   ") by repeat constructor.
  exact (conj H (initialize_session_blank_key Samples.gemini "   " false
                   Samples.session_at_start H)).
Defined.

(** From start-up: refused, then initialised, then parsed. *)
Lemma analysis_gated_by_initialization_witness :
  App.initialized (AppSession.world Samples.session_at_start) = false
  ∧ (AppSession.initialize_session Samples.gemini "key" false
       Samples.session_at_start).1.1 = true
  ∧ ∃ rest,
      App.log
        (App.analyze_resume Samples.stages Fixtures.presentation
           (Some "cv.pdf") "Mid" "Medium" false
           (AppSession.world
              (AppSession.initialize_session Samples.gemini "key" false
                 Samples.session_at_start).2)).2
      = Model.EvParse "cv.pdf" :: rest.
Proof.
  split; [reflexivity |]. split; [reflexivity |].
  exact (proj2 (analysis_gated_by_initialization Samples.gemini
                  Samples.stages Fixtures.presentation "key" "cv.pdf"
                  "Mid" "Medium" false false Samples.session_at_start
                  eq_refl eq_refl)).
Defined.

(** A request for a PDF export. *)
Lemma api_export_invalid_format_witness :
  (ViewSpec.export_format {["format" := "pdf"]} ∉ ["html"; "json"; "csv"])
  ∧ ApiExport.export_report Samples.renderers {["format" := "pdf"]}
      (Raise "400 Bad Request") Fixtures.fresh
    = (Ok (ApiExport.SentError
             "Invalid format. Must be: html, json, or csv" 400%Z),
       Fixtures.fresh).
Proof.
  assert (H : ViewSpec.export_format {["format" := "pdf"]}
              ∉ ["html"; "json"; "csv"]).
  { apply (bool_decide_unpack _). vm_compute. reflexivity. }
  exact (conj H (api_export_invalid_format Samples.renderers _ _ _ H)).
Defined.

(** A request for a JSON export, the format in upper case. *)
Lemma api_export_sends_file_witness :
  (ViewSpec.export_format {["format" := "JSON"]} ∈ ["html"; "json"; "csv"])
  ∧ (ApiExport.export_report Samples.renderers {["format" := "JSON"]}
       (Ok Samples.results_body) Fixtures.fresh).1
    = Ok (ApiExport.SentFile "/tmp/export.json"
            "resume_analysis_20240101_000000.json" "application/json").
Proof.
  assert (H : ViewSpec.export_format {["format" := "JSON"]}
              ∈ ["html"; "json"; "csv"]).
  { apply (bool_decide_unpack _). vm_compute. reflexivity. }
  split; [exact H |].
  assert (Hw : ViewSpec.export_written Samples.renderers ".json" "{}"
                 "/tmp/export.json") by by repeat split.
  rewrite (api_export_sends_file Samples.renderers {["format" := "JSON"]}
             Samples.results_body "{}" "/tmp/export.json" Fixtures.fresh
             H eq_refl eq_refl Hw).
  vm_compute. reflexivity.
Defined.

(** A request for an HTML export of a body whose text cannot be encoded:
    nothing is sent and the temporary file stays. *)
Lemma api_export_write_failure_witness :
  (ViewSpec.export_format ∅ ∈ ["html"; "json"; "csv"])
  ∧ ApiExport.export_report Samples.renderers_failing_write ∅
      (Ok Samples.results_body) Fixtures.fresh
    = (Ok (ApiExport.SentFailed "Export failed"
             "'utf-8' codec can't encode character: surrogates not allowed"
             500%Z),
       {| Api.gemini_client := false;
          Api.log := [Model.EvCreateTemp "/tmp/export.html";
                      Model.EvWriteFile "/tmp/export.html" "<html></html>"]
       |}).
Proof.
  assert (H : ViewSpec.export_format ∅ ∈ ["html"; "json"; "csv"]).
  { apply (bool_decide_unpack _). vm_compute. reflexivity. }
  split; [exact H |].
  exact (api_export_write_failure Samples.renderers_failing_write ∅
           Samples.results_body "<html></html>" "/tmp/export.html" _
           Fixtures.fresh H eq_refl eq_refl eq_refl (or_introl eq_refl)).
Defined.
